(** * Installer bot: the card-submission handlers of [bot.py] and the
    Rundeck client of [rundeck.py], embedded as state-passing programs.

    The handlers talk to three outside systems (ServiceNow, Rundeck, the
    request log of [db_connector]) and to the chat turn.  Every such call is
    recorded as an [event] in a trace; what the outside answers is read from
    an environment [Env] that gives, for each service, the answer to its
    i-th call.  The bot object's two fields are the only state of the
    program itself. *)

From Stdlib Require Import ZArith Ascii String List Lia Sorted Permutation.
From stdpp Require Import base gmap strings.
Import ListNotations.
Local Open Scope string_scope.
Local Open Scope list_scope.

(** ** Strings *)

Module PyStr.

(** One byte in lower case: [A]-[Z] go to [a]-[z], every other byte is
    kept. *)
Definition lower_ascii (c : ascii) : ascii :=
  let n := nat_of_ascii c in
  if (Nat.leb 65 n && Nat.leb n 90)%bool then ascii_of_nat (n + 32)%nat else c.

(** [str.lower()] on the bytes of a string.  On text outside ASCII Python
    maps more letters, but none of them to a string made of the letters of
    "new", "in progress", "closed" or "cancelled", the only strings the
    result is compared with. *)
Fixpoint lower (s : string) : string :=
  match s with
  | EmptyString => EmptyString
  | String c r => String (lower_ascii c) (lower r)
  end.

(** Python truth value of a [str]. *)
Definition truthy (s : string) : bool :=
  match s with EmptyString => false | _ => true end.

(** [a or b] on two strings. *)
Definition or_else (a b : string) : string := if truthy a then a else b.

End PyStr.

(** ** What the outside systems answer *)

(** The [GET .../table/incident?sysparm_query=number=...] of
    [update_incident_state_sn], up to the point where [results] is bound:
    either something in the [try] block raised (transport error,
    [raise_for_status], a body that is not JSON), or the body's ["result"]
    list is obtained; each of its records carries a ["sys_id"] or lacks it. *)
Inductive lookup_outcome :=
| LookupRaised (e : string)
| LookupOk (results : list (option string)).

(** The [PATCH .../table/incident/{sys_id}]: raised, or answered with a
    JSON body (kept as text). *)
Inductive patch_outcome :=
| PatchRaised (e : string)
| PatchOk (data : string).

(** The body that [create_incident_direct] returns on success, through the
    three things the caller reads from it: whether the dict is non-empty,
    [result.get("result", {}).get("number")] and [result.get("number")]
    (the empty string stands for an absent or empty entry). *)
Record create_body := {
  cb_nonempty : bool;
  cb_result_number : string;
  cb_number : string
}.

(** The [POST .../table/incident] of [create_incident_direct]: the request
    or [raise_for_status] raised; or the response was accepted and its body
    is JSON; or it was accepted and [response.json()] raised. *)
Inductive post_outcome :=
| PostRaised (e : string)
| PostOk (body : create_body)
| PostNotJson (e : string).

(** [requests.post] / [requests.get] against Rundeck: the call raised, or
    it gave a status code and a body from which the wanted field is read
    ([None]: [response.json()] or the subscript raised). *)
Inductive http (A : Type) :=
| HttpRaised
| HttpResp (status_code : Z) (field : option A).
Arguments HttpRaised {A}.
Arguments HttpResp {A} _ _.

(** The chat completion of [extract_incident_data]: the client raised or
    the completion has no text to strip ([LlmRaised]), or it returned a
    text that [json.loads] turns into a dict or rejects ([LlmText]), or a
    text that [json.loads] turns into a value that is not a dict: a list, a
    string, a number, a boolean or [None] ([LlmOther]). *)
Inductive llm_outcome :=
| LlmRaised
| LlmText (parsed : option (gmap string string))
| LlmOther.

(** What [extract_incident_data] returns and [create_incident_direct] is
    given: a dict, or one of the other values of [json.loads].  The entries
    of a dict are kept as strings: the code looks at none of them but
    [caller], and at that one only for its truth value. *)
Inductive loaded :=
| Dict (d : gmap string string)
| NotDict.

(** The outside world: for each service, the answer to its i-th call with
    the given arguments.  [db_log] and [db_feedback] stand for
    [log_software_request] and [log_feedback] of [db_connector], and
    [get_software_info] for the catalog lookup of the same module ([None]
    when the dict it returns lacks ["name"] or ["version"]); they answer
    and do not raise.  [turn_context.send_activity] does not raise either. *)
Record Env := {
  sn_get : nat -> string -> lookup_outcome;
  sn_patch : nat -> string -> string -> patch_outcome;
  sn_post : nat -> gmap string string -> post_outcome;
  rd_run : nat -> string -> option string -> http Z;
  rd_exec : nat -> Z -> http string;
  db_log : nat -> string -> string -> string -> string -> bool;
  db_feedback : nat -> string -> string -> string -> string -> string -> string -> bool;
  llm_chat : nat -> string -> llm_outcome;
  get_software_info : string -> string -> option (string * string)
}.

(** ** Results of the bot's own functions *)

Inductive update_error :=
| ErrNotFound (incident_number : string)
| ErrInvalidState (new_state : string)
| ErrException (e : string).

(** The dict returned by [update_incident_state_sn]. *)
Inductive update_result :=
| UpdError (err : update_error)
| UpdSuccess (data : string).

(** [update_result and update_result.get("success")] *)
Definition upd_success (r : update_result) : bool :=
  match r with UpdSuccess _ => true | UpdError _ => false end.

(** ** Messages, prints and events *)

(** The texts passed to [turn_context.send_activity], one constructor per
    f-string of the source with the values it interpolates. *)
Inductive message :=
| MsgCreatingTicket (app version : string)
| MsgIncidentCreated (incident_number : string)
| MsgCreateFailed
| MsgSelectVersion
| MsgSorryError
| MsgSwitchingToAdmin
| MsgAdminNotification
| CardAdminApproval (approval_data : gmap string string)
| MsgSnInProgress (incident_number : string)
| MsgSnCancelled (incident_number : string)
| MsgSnUpdateFailed (r : update_result)
| MsgApproved (incident_number software_name version : string)
| MsgTriggerFailed
| MsgJobStarted (execution_id : Z)
| MsgInstallSucceeded (software_name version : string)
| MsgInstallFailed (software_name version : string)
| MsgStatusUnknown
| MsgRejected (incident_number software_name version reason : string)
| MsgFeedbackPrompt
| CardFeedback (incident_number software_name version installation_status : string)
| MsgFeedbackThanks (incident_number rating : string)
| MsgFeedbackNotSaved
| MsgSkipThanks (incident_number : string).

(** The lines written with [print]. *)
Inductive printed :=
| PrUpdating (incident_number new_state : string)
| PrUpdateError (e : string)
| PrCreating
| PrCreated
| PrCreateError (e : string)
| PrRawLlm
| PrLlmNotJson
| PrFullResponse
| PrIncidentNumber (incident_number : string)
| PrLogged (incident_number : string)
| PrLogFailed (incident_number : string)
| PrCannotLog
| PrCreateFailed
| PrTriggerFailed (status_code : Z)
| PrJobStatus (status : string)
| PrCardError.

Inductive event :=
| EvSend (m : message)
| EvPrint (p : printed)
| EvSnGet (incident_number : string)
| EvSnPatch (sys_id mapped_state : string)
| EvSnPost (incident_data : gmap string string)
| EvRdRun (app : string) (version : option string)
| EvRdExec (execution_id : Z)
| EvSleep (seconds : Z)
| EvLog (incident_number software_name version status : string)
| EvFeedbackLog (incident_number software_name version rating comments installation_status : string)
| EvLlm (prompt : string).

(** ** Program state *)

(** The two fields of [MyBot]. *)
Record Bot := {
  is_admin_mode : bool;
  pending_approval : gmap string string
}.

(** How many calls each service has received. *)
Record Calls := {
  n_sn_get : nat;
  n_sn_patch : nat;
  n_sn_post : nat;
  n_rd_run : nat;
  n_rd_exec : nat;
  n_db_log : nat;
  n_db_feedback : nat;
  n_llm : nat
}.

Record St := {
  bot : Bot;
  calls : Calls;
  trace : list event
}.

Definition no_calls : Calls := Build_Calls 0 0 0 0 0 0 0 0.

(** [MyBot.__init__] *)
Definition new_bot : Bot := {| is_admin_mode := false; pending_approval := ∅ |}.

Definition init : St := {| bot := new_bot; calls := no_calls; trace := [] |}.

(** ** The monad: state, Python exceptions, and a loop that is still
    running when the fuel given to it is used up. *)

Inductive Res (A : Type) :=
| Val (a : A)
| Raised (e : string)
| Spin.
Arguments Val {A} _.
Arguments Raised {A} _.
Arguments Spin {A}.

Definition M (A : Type) : Type := St -> Res A * St.

Definition ret {A} (a : A) : M A := fun s => (Val a, s).

Definition bind {A B} (m : M A) (k : A -> M B) : M B :=
  fun s =>
    match m s with
    | (Val a, s') => k a s'
    | (Raised e, s') => (Raised e, s')
    | (Spin, s') => (Spin, s')
    end.

#[global] Instance M_ret : MRet M := @ret.
#[global] Instance M_bind : MBind M := fun A B k m => bind m k.

Definition raise {A} (e : string) : M A := fun s => (Raised e, s).

Definition spin {A} : M A := fun s => (Spin, s).

(** [try: m  except Exception as e: h e] *)
Definition try_except {A} (m : M A) (h : string -> M A) : M A :=
  fun s =>
    match m s with
    | (Raised e, s') => h e s'
    | r => r
    end.

Definition emit (e : event) : M unit :=
  fun s => (Val tt, {| bot := bot s; calls := calls s; trace := trace s ++ [e] |}).

Definition send_activity (m : message) : M unit := emit (EvSend m).
Definition print (p : printed) : M unit := emit (EvPrint p).

Definition set_bot (b : Bot) : M unit :=
  fun s => (Val tt, {| bot := b; calls := calls s; trace := trace s |}).

(** A call to an outside service: the event is recorded, the service's
    call count goes up, and the answer is the environment's for that call. *)
Definition call {A} (answer : Calls -> A) (count : Calls -> Calls) (e : event) : M A :=
  fun s =>
    (Val (answer (calls s)),
     {| bot := bot s; calls := count (calls s); trace := trace s ++ [e] |}).

Module Count.
Definition sn_get (c : Calls) : Calls :=
  Build_Calls (S (n_sn_get c)) (n_sn_patch c) (n_sn_post c) (n_rd_run c)
              (n_rd_exec c) (n_db_log c) (n_db_feedback c) (n_llm c).
Definition sn_patch (c : Calls) : Calls :=
  Build_Calls (n_sn_get c) (S (n_sn_patch c)) (n_sn_post c) (n_rd_run c)
              (n_rd_exec c) (n_db_log c) (n_db_feedback c) (n_llm c).
Definition sn_post (c : Calls) : Calls :=
  Build_Calls (n_sn_get c) (n_sn_patch c) (S (n_sn_post c)) (n_rd_run c)
              (n_rd_exec c) (n_db_log c) (n_db_feedback c) (n_llm c).
Definition rd_run (c : Calls) : Calls :=
  Build_Calls (n_sn_get c) (n_sn_patch c) (n_sn_post c) (S (n_rd_run c))
              (n_rd_exec c) (n_db_log c) (n_db_feedback c) (n_llm c).
Definition rd_exec (c : Calls) : Calls :=
  Build_Calls (n_sn_get c) (n_sn_patch c) (n_sn_post c) (n_rd_run c)
              (S (n_rd_exec c)) (n_db_log c) (n_db_feedback c) (n_llm c).
Definition db_log (c : Calls) : Calls :=
  Build_Calls (n_sn_get c) (n_sn_patch c) (n_sn_post c) (n_rd_run c)
              (n_rd_exec c) (S (n_db_log c)) (n_db_feedback c) (n_llm c).
Definition db_feedback (c : Calls) : Calls :=
  Build_Calls (n_sn_get c) (n_sn_patch c) (n_sn_post c) (n_rd_run c)
              (n_rd_exec c) (n_db_log c) (S (n_db_feedback c)) (n_llm c).
Definition llm (c : Calls) : Calls :=
  Build_Calls (n_sn_get c) (n_sn_patch c) (n_sn_post c) (n_rd_run c)
              (n_rd_exec c) (n_db_log c) (n_db_feedback c) (S (n_llm c)).
End Count.

(** [card_data.get(key, default)] with the empty string as default. *)
Definition card_get (card_data : gmap string string) (key : string) : string :=
  default EmptyString (card_data !! key).

(** [state_map] of [update_incident_state_sn]. *)
Definition state_map : gmap string string :=
  list_to_map [("new", "1"); ("in progress", "2"); ("closed", "7"); ("cancelled", "8")].

(** [status in ["succeeded", "failed", "aborted"]] *)
Definition is_finished (status : string) : bool :=
  existsb (String.eqb status) ["succeeded"; "failed"; "aborted"].

(** Python truth value of what [run_rundeck_job] returns: [None] and the
    integer 0 are false. *)
Definition id_truthy (execution_id : option Z) : option Z :=
  match execution_id with
  | Some z => if (z =? 0)%Z then None else Some z
  | None => None
  end.

Section Program.

Variable env : Env.

(** *** rundeck.py *)

Definition run_rundeck_job (app_name version : string) : M (option Z) :=
  let options := if PyStr.truthy version then Some version else None in
  response ← call (fun c => rd_run env (n_rd_run c) app_name options)
                  Count.rd_run (EvRdRun app_name options);
  match response with
  | HttpRaised => raise "requests.post"
  | HttpResp status_code data =>
      if (status_code =? 200)%Z then
        match data with
        | Some id => mret (Some id)
        | None => raise "id"
        end
      else
        print (PrTriggerFailed status_code);;
        mret None
  end.

(** The [while True] loop, run for at most [fuel] rounds; [Spin] when
    the loop has not returned by then. *)
Fixpoint check_job_status (fuel : nat) (execution_id : Z) : M string :=
  match fuel with
  | O => spin
  | S fuel' =>
      response ← call (fun c => rd_exec env (n_rd_exec c) execution_id)
                      Count.rd_exec (EvRdExec execution_id);
      match response with
      | HttpRaised => raise "requests.get"
      | HttpResp status_code data =>
          if (status_code =? 200)%Z then
            match data with
            | None => raise "status"
            | Some status =>
                print (PrJobStatus status);;
                if is_finished status then mret status
                else
                  emit (EvSleep 5);;
                  check_job_status fuel' execution_id
            end
          else mret "error"
      end
  end.

(** *** bot.py *)

Definition log_software_request (incident_number software_name version status : string)
  : M bool :=
  call (fun c => db_log env (n_db_log c) incident_number software_name version status)
       Count.db_log (EvLog incident_number software_name version status).

Definition log_feedback
    (incident_number software_name version rating comments installation_status : string)
  : M bool :=
  call (fun c => db_feedback env (n_db_feedback c) incident_number software_name version
                   rating comments installation_status)
       Count.db_feedback
       (EvFeedbackLog incident_number software_name version rating comments
                      installation_status).

Definition extract_incident_data (user_input : string) : M loaded :=
  let prompt :=
    ("Analyze this user input and extract incident information in JSON format: "
       ++ String "034" user_input ++ String "034" EmptyString)%string in
  completion ← call (fun c => llm_chat env (n_llm c) prompt) Count.llm (EvLlm prompt);
  match completion with
  | LlmRaised => raise "groq"
  | LlmText parsed =>
      print PrRawLlm;;
      match parsed with
      | Some d => mret (Dict d)
      | None =>
          print PrLlmNotJson;;
          mret (Dict (list_to_map [("short_description", user_input);
                                   ("description", user_input);
                                   ("category", "Software");
                                   ("caller", "Guest")]))
      end
  | LlmOther =>
      print PrRawLlm;;
      mret NotDict
  end.

(** On a value that is not a dict, [incident_data.get] raises inside the
    [try], before the request is made. *)
Definition create_incident_direct (incident_data : loaded)
  : M (option create_body) :=
  try_except
    (print PrCreating;;
     match incident_data with
     | NotDict => raise "AttributeError"
     | Dict incident_data =>
         let incident_data :=
           if PyStr.truthy (card_get incident_data "caller") then incident_data
           else <["caller" := "Guest"]> incident_data in
         response ← call (fun c => sn_post env (n_sn_post c) incident_data)
                         Count.sn_post (EvSnPost incident_data);
         match response with
         | PostRaised e => raise e
         | PostOk body => print PrCreated;; mret (Some body)
         | PostNotJson e => print PrCreated;; raise e
         end
     end)
    (fun e => print (PrCreateError e);; mret None).

Definition update_incident_state_sn (incident_number new_state : string)
  : M update_result :=
  try_except
    (print (PrUpdating incident_number new_state);;
     lookup_resp ← call (fun c => sn_get env (n_sn_get c) incident_number)
                        Count.sn_get (EvSnGet incident_number);
     match lookup_resp with
     | LookupRaised e => raise e
     | LookupOk [] => mret (UpdError (ErrNotFound incident_number))
     | LookupOk (None :: _) => raise "'sys_id'"
     | LookupOk (Some sys_id :: _) =>
         match state_map !! PyStr.lower new_state with
         | None => mret (UpdError (ErrInvalidState new_state))
         | Some mapped_state =>
             if PyStr.truthy mapped_state then
               update_resp ← call (fun c => sn_patch env (n_sn_patch c) sys_id mapped_state)
                                  Count.sn_patch (EvSnPatch sys_id mapped_state);
               match update_resp with
               | PatchRaised e => raise e
               | PatchOk data => mret (UpdSuccess data)
               end
             else mret (UpdError (ErrInvalidState new_state))
         end
     end)
    (fun e => print (PrUpdateError e);; mret (UpdError (ErrException e))).

Definition _send_feedback_card
    (incident_number software_name version installation_status : string) : M unit :=
  send_activity MsgFeedbackPrompt;;
  send_activity (CardFeedback incident_number software_name version installation_status).

Definition _reset_admin_mode : M unit :=
  set_bot {| is_admin_mode := false; pending_approval := ∅ |}.

Definition _switch_to_admin_mode (approval_data : gmap string string) : M unit :=
  set_bot {| is_admin_mode := true; pending_approval := approval_data |};;
  send_activity MsgSwitchingToAdmin;;
  send_activity MsgAdminNotification;;
  send_activity (CardAdminApproval approval_data).

Definition _handle_admin_approval (fuel : nat) (card_data : gmap string string) : M unit :=
  let incident_number := card_get card_data "incident_number" in
  let software_name := card_get card_data "software_name" in
  let version := card_get card_data "version" in
  update_result ← update_incident_state_sn incident_number "in progress";
  (if upd_success update_result
   then send_activity (MsgSnInProgress incident_number)
   else send_activity (MsgSnUpdateFailed update_result));;
  send_activity (MsgApproved incident_number software_name version);;
  log_software_request incident_number software_name version
    "Admin approved the software installation request";;
  execution_id ← run_rundeck_job software_name version;
  match id_truthy execution_id with
  | None =>
      send_activity MsgTriggerFailed;;
      _send_feedback_card incident_number software_name version "failed"
  | Some execution_id =>
      send_activity (MsgJobStarted execution_id);;
      final_status ← check_job_status fuel execution_id;
      outcome ←
        ((if String.eqb final_status "succeeded" then
           update_incident_state_sn incident_number "closed";;
           send_activity (MsgInstallSucceeded software_name version);;
           mret ("Rundeck job succeeded, software installed", "success")
         else if existsb (String.eqb final_status) ["failed"; "aborted"] then
           update_incident_state_sn incident_number "cancelled";;
           send_activity (MsgInstallFailed software_name version);;
           mret (("Rundeck job " ++ final_status)%string, "failed")
         else
           send_activity MsgStatusUnknown;;
           mret ("Rundeck job error", "failed")) : M (string * string));
      let '(status_msg, installation_status) := outcome in
      log_software_request incident_number software_name version status_msg;;
      _send_feedback_card incident_number software_name version installation_status;;
      _reset_admin_mode
  end.

Definition _handle_admin_rejection (card_data : gmap string string) : M unit :=
  let incident_number := card_get card_data "incident_number" in
  let software_name := card_get card_data "software_name" in
  let version := card_get card_data "version" in
  let rejection_reason := card_get card_data "rejection_reason" in
  update_result ← update_incident_state_sn incident_number "cancelled";
  (if upd_success update_result
   then send_activity (MsgSnCancelled incident_number)
   else send_activity (MsgSnUpdateFailed update_result));;
  send_activity (MsgRejected incident_number software_name version
                   (PyStr.or_else rejection_reason "No reason provided"));;
  log_software_request incident_number software_name version
    "Admin rejected the request of Software Installation";;
  _reset_admin_mode.

Definition _handle_feedback_submission (card_data : gmap string string) : M unit :=
  let incident_number := card_get card_data "incident_number" in
  let software_name := card_get card_data "software_name" in
  let version := card_get card_data "version" in
  let installation_status := card_get card_data "installation_status" in
  let rating := default "3" (card_data !! "rating") in
  let feedback_comments := card_get card_data "feedback_comments" in
  feedback_logged ← log_feedback incident_number software_name version rating
                      feedback_comments installation_status;
  match feedback_logged with
  | true => send_activity (MsgFeedbackThanks incident_number rating)
  | false => send_activity MsgFeedbackNotSaved
  end.

Definition _handle_skip_feedback (card_data : gmap string string) : M unit :=
  send_activity (MsgSkipThanks (card_get card_data "incident_number")).

(** The [action == "install"] branch of [_handle_card_submission]. *)
Definition install_branch (card_data : gmap string string) : M unit :=
  let app := card_get card_data "app" in
  let version := card_get card_data "version" in
  if (PyStr.truthy app && PyStr.truthy version)%bool then
    send_activity (MsgCreatingTicket app version);;
    match get_software_info env app version with
    | None => raise "software_info"
    | Some (name, info_version) =>
        let incident_description :=
          ("Installation of " ++ name ++ " v" ++ info_version)%string in
        if PyStr.truthy incident_description then
          incident_data ← extract_incident_data incident_description;
          result ← create_incident_direct incident_data;
          match result with
          | Some body =>
              if cb_nonempty body then
                print PrFullResponse;;
                let incident_number :=
                  PyStr.or_else (cb_result_number body)
                    (PyStr.or_else (cb_number body) "Unknown") in
                print (PrIncidentNumber incident_number);;
                send_activity (MsgIncidentCreated incident_number);;
                if negb (String.eqb incident_number "Unknown") then
                  log_success ← log_software_request incident_number app version
                    "User initiated the request for the Software Installation";
                  match log_success with
                  | true =>
                      print (PrLogged incident_number);;
                      _switch_to_admin_mode
                        (list_to_map [("incident_number", incident_number);
                                      ("software_name", app);
                                      ("version", version);
                                      ("requester", "Guest")])
                  | false => print (PrLogFailed incident_number)
                  end
                else print PrCannotLog
              else
                print PrCreateFailed;;
                send_activity MsgCreateFailed
          | None =>
              print PrCreateFailed;;
              send_activity MsgCreateFailed
          end
        else mret tt
    end
  else send_activity MsgSelectVersion.

(** The [action == "show_versions"] branch only browses the catalog and
    renders cards; it is kept abstract. *)
Variable show_versions_branch : gmap string string -> M unit.

Definition _handle_card_submission (fuel : nat) (card_data : gmap string string) : M unit :=
  try_except
    (let action := card_get card_data "action" in
     if String.eqb action "install" then install_branch card_data
     else if String.eqb action "admin_approve" then _handle_admin_approval fuel card_data
     else if String.eqb action "admin_reject" then _handle_admin_rejection card_data
     else if String.eqb action "submit_feedback" then _handle_feedback_submission card_data
     else if String.eqb action "skip_feedback" then _handle_skip_feedback card_data
     else if String.eqb action "show_versions" then show_versions_branch card_data
     else mret tt)
    (fun e => print PrCardError;; send_activity MsgSorryError).

End Program.

Arguments state_map : simpl never.
Arguments is_finished : simpl never.

(** ** What is observed of a run *)

Inductive kind :=
| KSend | KPrint | KSnGet | KSnPatch | KSnPost | KRdRun | KRdExec | KSleep
| KLog | KFeedbackLog | KLlm.

Definition kind_of (e : event) : kind :=
  match e with
  | EvSend _ => KSend
  | EvPrint _ => KPrint
  | EvSnGet _ => KSnGet
  | EvSnPatch _ _ => KSnPatch
  | EvSnPost _ => KSnPost
  | EvRdRun _ _ => KRdRun
  | EvRdExec _ => KRdExec
  | EvSleep _ => KSleep
  | EvLog _ _ _ _ => KLog
  | EvFeedbackLog _ _ _ _ _ _ => KFeedbackLog
  | EvLlm _ => KLlm
  end.

(** Every event of [evs] is of one of the kinds [ks]. *)
Definition only (ks : list kind) (evs : list event) : Prop :=
  Forall (fun e => In (kind_of e) ks) evs.

(** No event of [evs] is of kind [k]. *)
Definition without (k : kind) (evs : list event) : Prop :=
  Forall (fun e => kind_of e <> k) evs.

(** The feedback stage is entered when the feedback card is sent. *)
Definition feedback_card_sent (evs : list event) : Prop :=
  exists i sw v st, In (EvSend (CardFeedback i sw v st)) evs.

(** A poll answer on which the loop of [check_job_status] goes round
    again: status code 200 and a status that is not a final one. *)
Definition still_running (r : http string) : Prop :=
  exists status, r = HttpResp 200 (Some status) /\ is_finished status = false.

(** A trigger answer after which [execution_id] is false in the handler:
    a status code other than 200, or an id equal to 0. *)
Definition trigger_failed (r : http Z) : Prop :=
  match r with
  | HttpRaised => False
  | HttpResp status_code data =>
      status_code <> 200%Z \/ (status_code = 200%Z /\ data = Some 0%Z)
  end.

(** The job triggers among the events. *)
Definition triggers (evs : list event) : list event :=
  List.filter (fun e => match e with EvRdRun _ _ => true | _ => false end) evs.

(** Two states that differ at most in the bot's fields. *)
Definition agree (s1 s2 : St) : Prop :=
  calls s1 = calls s2 /\ trace s1 = trace s2.

(** [m] does not look at the bot's fields: from states that agree on the
    rest it gives the same result, makes the same calls and leaves the same
    trace. *)
Definition blind {A} (m : M A) : Prop :=
  forall s1 s2, agree s1 s2 ->
    fst (m s1) = fst (m s2) /\ agree (snd (m s1)) (snd (m s2)).

(** The four keys of [state_map]. *)
Definition known_states : list string := ["new"; "in progress"; "closed"; "cancelled"].

Abbreviation mkSt := Build_St.

(** [k] more polls. *)
Definition polled (k : nat) (c : Calls) : Calls :=
  Build_Calls (n_sn_get c) (n_sn_patch c) (n_sn_post c) (n_rd_run c)
              (k + n_rd_exec c) (n_db_log c) (n_db_feedback c) (n_llm c).

(** [env] with the request log answering as [f] does. *)
Definition with_db_log
    (env : Env) (f : nat -> string -> string -> string -> string -> bool) : Env := {|
  sn_get := sn_get env;
  sn_patch := sn_patch env;
  sn_post := sn_post env;
  rd_run := rd_run env;
  rd_exec := rd_exec env;
  db_log := f;
  db_feedback := db_feedback env;
  llm_chat := llm_chat env;
  get_software_info := get_software_info env
|}.

(** The prompt that [extract_incident_data] sends for a description. *)
Definition extraction_prompt (user_input : string) : string :=
  ("Analyze this user input and extract incident information in JSON format: "
     ++ String "034" user_input ++ String "034" EmptyString)%string.

(** The [options] that [run_rundeck_job] sends for a version. *)
Definition job_version (version : string) : option string :=
  if PyStr.truthy version then Some version else None.

(** [Q] holds of the result and final state of [m] run from [s]. *)
Definition wp {A} (m : M A) (s : St) (Q : Res A -> St -> Prop) : Prop :=
  let '(r, s') := m s in Q r s'.

(** How [_handle_admin_approval] concludes on each final status of the
    job: the ticket state it asks for and its ServiceNow code, the notice
    it sends, the status it logs and the installation status it puts on
    the feedback card. *)
Inductive concluded (software_name version : string)
  : string -> string -> string -> message -> string -> string -> Prop :=
| concluded_succeeded :
    concluded software_name version "succeeded" "closed" "7"
      (MsgInstallSucceeded software_name version)
      "Rundeck job succeeded, software installed" "success"
| concluded_failed :
    concluded software_name version "failed" "cancelled" "8"
      (MsgInstallFailed software_name version) "Rundeck job failed" "failed"
| concluded_aborted :
    concluded software_name version "aborted" "cancelled" "8"
      (MsgInstallFailed software_name version) "Rundeck job aborted" "failed".

(** ** Sample environments and cards *)

Module Sample.

(** Every service answers well; the job reports ["running"] on its
    first two polls and [final] from the third on. *)
Definition env_final (final : string) : Env := {|
  sn_get := fun _ _ => LookupOk [Some "51d0a7"];
  sn_patch := fun _ _ _ => PatchOk "{}";
  sn_post := fun _ _ => PostOk (Build_create_body true "INC0010001" EmptyString);
  rd_run := fun _ _ _ => HttpResp 200 (Some 42%Z);
  rd_exec := fun i _ =>
    if Nat.ltb i 2 then HttpResp 200 (Some "running") else HttpResp 200 (Some final);
  db_log := fun _ _ _ _ _ => true;
  db_feedback := fun _ _ _ _ _ _ _ => true;
  llm_chat := fun _ _ => LlmText None;
  get_software_info := fun a v => Some (a, v)
|}.

Definition env_ok : Env := env_final "succeeded".

(** As [env_ok], but the job never leaves ["running"]. *)
Definition env_running : Env := {|
  sn_get := sn_get env_ok;
  sn_patch := sn_patch env_ok;
  sn_post := sn_post env_ok;
  rd_run := rd_run env_ok;
  rd_exec := fun _ _ => HttpResp 200 (Some "running");
  db_log := db_log env_ok;
  db_feedback := db_feedback env_ok;
  llm_chat := llm_chat env_ok;
  get_software_info := get_software_info env_ok
|}.

(** As [env_ok], but the status query is answered with a 500. *)
Definition env_poll_500 : Env := {|
  sn_get := sn_get env_ok;
  sn_patch := sn_patch env_ok;
  sn_post := sn_post env_ok;
  rd_run := rd_run env_ok;
  rd_exec := fun _ _ => HttpResp 500 None;
  db_log := db_log env_ok;
  db_feedback := db_feedback env_ok;
  llm_chat := llm_chat env_ok;
  get_software_info := get_software_info env_ok
|}.

(** As [env_ok], but the job trigger is answered with a 500. *)
Definition env_trigger_500 : Env := {|
  sn_get := sn_get env_ok;
  sn_patch := sn_patch env_ok;
  sn_post := sn_post env_ok;
  rd_run := fun _ _ _ => HttpResp 500 None;
  rd_exec := rd_exec env_ok;
  db_log := db_log env_ok;
  db_feedback := db_feedback env_ok;
  llm_chat := llm_chat env_ok;
  get_software_info := get_software_info env_ok
|}.

(** As [env_ok], but the request log refuses every write. *)
Definition env_log_fails : Env := {|
  sn_get := sn_get env_ok;
  sn_patch := sn_patch env_ok;
  sn_post := sn_post env_ok;
  rd_run := rd_run env_ok;
  rd_exec := rd_exec env_ok;
  db_log := fun _ _ _ _ _ => false;
  db_feedback := db_feedback env_ok;
  llm_chat := llm_chat env_ok;
  get_software_info := get_software_info env_ok
|}.

(** As [env_ok], but ServiceNow knows no incident of the number asked. *)
Definition env_no_incident : Env := {|
  sn_get := fun _ _ => LookupOk [];
  sn_patch := sn_patch env_ok;
  sn_post := sn_post env_ok;
  rd_run := rd_run env_ok;
  rd_exec := rd_exec env_ok;
  db_log := db_log env_ok;
  db_feedback := db_feedback env_ok;
  llm_chat := llm_chat env_ok;
  get_software_info := get_software_info env_ok
|}.

Definition install_card : gmap string string :=
  list_to_map [("action", "install"); ("app", "zoom"); ("version", "5.0")].

Definition install_card_no_version : gmap string string :=
  list_to_map [("action", "install"); ("app", "zoom")].

Definition approve_card : gmap string string :=
  list_to_map [("action", "admin_approve"); ("incident_number", "INC0010001");
               ("software_name", "zoom"); ("version", "5.0")].

Definition reject_card : gmap string string :=
  list_to_map [("action", "admin_reject"); ("incident_number", "INC0010001");
               ("software_name", "zoom"); ("version", "5.0");
               ("rejection_reason", "not approved for this env")].

(** The [show_versions] branch of a bot that sends nothing there. *)
Definition no_show : gmap string string -> M unit := fun _ => mret tt.

End Sample.

(** ** More observations *)

(** The status queries and the sleeps among the events. *)
Definition polls (evs : list event) : nat :=
  length (List.filter (fun e => match e with EvRdExec _ => true | _ => false end) evs).

Definition sleeps (evs : list event) : nat :=
  length (List.filter (fun e => match e with EvSleep _ => true | _ => false end) evs).

(** The PATCH requests among the events. *)
Definition patches (evs : list event) : list event :=
  List.filter (fun e => match e with EvSnPatch _ _ => true | _ => false end) evs.

(** The entries written to the request log among the events. *)
Definition log_entries (evs : list event) : list event :=
  List.filter (fun e => match e with EvLog _ _ _ _ => true | _ => false end) evs.

(** ** More sample environments *)

Module Cases.

(** [Sample.env_ok] with one service replaced. *)
Definition with_sn_get (f : nat -> string -> lookup_outcome) : Env := {|
  sn_get := f;
  sn_patch := sn_patch Sample.env_ok;
  sn_post := sn_post Sample.env_ok;
  rd_run := rd_run Sample.env_ok;
  rd_exec := rd_exec Sample.env_ok;
  db_log := db_log Sample.env_ok;
  db_feedback := db_feedback Sample.env_ok;
  llm_chat := llm_chat Sample.env_ok;
  get_software_info := get_software_info Sample.env_ok
|}.

Definition with_sn_post (f : nat -> gmap string string -> post_outcome) : Env := {|
  sn_get := sn_get Sample.env_ok;
  sn_patch := sn_patch Sample.env_ok;
  sn_post := f;
  rd_run := rd_run Sample.env_ok;
  rd_exec := rd_exec Sample.env_ok;
  db_log := db_log Sample.env_ok;
  db_feedback := db_feedback Sample.env_ok;
  llm_chat := llm_chat Sample.env_ok;
  get_software_info := get_software_info Sample.env_ok
|}.

Definition with_rd_run (f : nat -> string -> option string -> http Z) : Env := {|
  sn_get := sn_get Sample.env_ok;
  sn_patch := sn_patch Sample.env_ok;
  sn_post := sn_post Sample.env_ok;
  rd_run := f;
  rd_exec := rd_exec Sample.env_ok;
  db_log := db_log Sample.env_ok;
  db_feedback := db_feedback Sample.env_ok;
  llm_chat := llm_chat Sample.env_ok;
  get_software_info := get_software_info Sample.env_ok
|}.

Definition with_rd_exec (f : nat -> Z -> http string) : Env := {|
  sn_get := sn_get Sample.env_ok;
  sn_patch := sn_patch Sample.env_ok;
  sn_post := sn_post Sample.env_ok;
  rd_run := rd_run Sample.env_ok;
  rd_exec := f;
  db_log := db_log Sample.env_ok;
  db_feedback := db_feedback Sample.env_ok;
  llm_chat := llm_chat Sample.env_ok;
  get_software_info := get_software_info Sample.env_ok
|}.

Definition with_db_feedback
    (f : nat -> string -> string -> string -> string -> string -> string -> bool) : Env := {|
  sn_get := sn_get Sample.env_ok;
  sn_patch := sn_patch Sample.env_ok;
  sn_post := sn_post Sample.env_ok;
  rd_run := rd_run Sample.env_ok;
  rd_exec := rd_exec Sample.env_ok;
  db_log := db_log Sample.env_ok;
  db_feedback := f;
  llm_chat := llm_chat Sample.env_ok;
  get_software_info := get_software_info Sample.env_ok
|}.

Definition with_llm_chat (f : nat -> string -> llm_outcome) : Env := {|
  sn_get := sn_get Sample.env_ok;
  sn_patch := sn_patch Sample.env_ok;
  sn_post := sn_post Sample.env_ok;
  rd_run := rd_run Sample.env_ok;
  rd_exec := rd_exec Sample.env_ok;
  db_log := db_log Sample.env_ok;
  db_feedback := db_feedback Sample.env_ok;
  llm_chat := f;
  get_software_info := get_software_info Sample.env_ok
|}.

(** The language model answers with JSON that is not an object, a list
    for instance. *)
Definition env_answer_not_object : Env := with_llm_chat (fun _ _ => LlmOther).

(** ServiceNow refuses to create the incident. *)
Definition env_post_fails : Env :=
  with_sn_post (fun _ _ => PostRaised "503 Service Unavailable").


(** The lookup of the incident fails. *)
Definition env_lookup_fails : Env :=
  with_sn_get (fun _ _ => LookupRaised "ConnectTimeout").

(** Rundeck cannot be reached for the trigger. *)
Definition env_trigger_raises : Env := with_rd_run (fun _ _ _ => HttpRaised).

(** Rundeck answers one status query and cannot be reached for the next. *)
Definition env_poll_raises : Env :=
  with_rd_exec (fun i _ => if Nat.eqb i 0 then HttpResp 200 (Some "running") else HttpRaised).

(** The feedback cannot be saved. *)
Definition env_feedback_fails : Env := with_db_feedback (fun _ _ _ _ _ _ _ => false).

(** What the first button of the feedback card submits once a rating is
    chosen and a comment typed in. *)
Definition feedback_card_data : gmap string string :=
  list_to_map [("action", "submit_feedback"); ("incident_number", "INC0010001");
               ("software_name", "zoom"); ("version", "5.0");
               ("installation_status", "success"); ("timestamp", "{{DATE()}}");
               ("rating", "4"); ("feedback_comments", "quick")].

(** The record of a pending approval, as an install submission leaves it. *)
Definition approval_data : gmap string string :=
  list_to_map [("incident_number", "INC0010001"); ("software_name", "zoom");
               ("version", "5.0"); ("requester", "Guest")].

(** What pressing APPROVE on the card for [approval_data] submits, with a
    comment typed in. *)
Definition approve_submission : gmap string string :=
  list_to_map [("action", "admin_approve"); ("incident_number", "INC0010001");
               ("software_name", "zoom"); ("version", "5.0"); ("requester", "Guest");
               ("timestamp", "{{DATE()}}"); ("admin_comments", "fine")].

(** What the software card for zoom submits once version 5.0 is chosen. *)
Definition install_submission : gmap string string :=
  list_to_map [("action", "install"); ("app", "zoom"); ("timestamp", "{{DATE()}}");
               ("version", "5.0")].

Definition feedback_card_data_unrated : gmap string string :=
  list_to_map [("action", "submit_feedback"); ("incident_number", "INC0010001");
               ("software_name", "zoom"); ("version", "5.0");
               ("installation_status", "success")].

End Cases.

(** ** card_builder.py *)

(** The JSON documents that the card builders write as dict literals.  An
    object keeps its entries in the order of the literal. *)
#[local] Unset Elimination Schemes.
Inductive json :=
| JStr (s : string)
| JNum (n : Z)
| JBool (b : bool)
| JList (items : list json)
| JObj (entries : list (string * json)).
#[local] Set Elimination Schemes.

Module Cards.

Section Builders.

(** [str.title()], which follows the Unicode character database. *)
Variable title : string -> string.

(** [build_software_card]: the [content] of the attachment it returns. *)
Definition build_software_card (app_name : string) (versions : list string) : json :=
  JObj [
    ("type", JStr "AdaptiveCard");
    ("$schema", JStr "http://adaptivecards.io/schemas/adaptive-card.json");
    ("version", JStr "1.4");
    ("body", JList [
       JObj [("type", JStr "TextBlock");
             ("text", JStr ("📦 Install " ++ title app_name)%string);
             ("weight", JStr "Bolder");
             ("size", JStr "Large");
             ("color", JStr "Accent")];
       JObj [("type", JStr "TextBlock");
             ("text", JStr "Please select the version you want to install:");
             ("size", JStr "Medium");
             ("spacing", JStr "Medium")];
       JObj [("type", JStr "Input.ChoiceSet");
             ("id", JStr "version");
             ("style", JStr "compact");
             ("placeholder", JStr "Choose version...");
             ("choices",
              JList (map (fun v => JObj [("title", JStr ("Version " ++ v)%string);
                                         ("value", JStr v)])
                       versions))]]);
    ("actions", JList [
       JObj [("type", JStr "Action.Submit");
             ("title", JStr "🚀 Proceed With Installation");
             ("data", JObj [("action", JStr "install");
                            ("app", JStr app_name);
                            ("timestamp", JStr "{{DATE()}}")])]])
  ].

(** [choices.sort(key=lambda x: x["title"])] on the choices as pairs of
    title and value: a stable sort by title, titles compared as Python
    compares strings (by code point, which on UTF-8 text is the order of
    the bytes). *)
Fixpoint insert_choice (c : string * string) (sorted : list (string * string))
  : list (string * string) :=
  match sorted with
  | [] => [c]
  | d :: rest =>
      if String.leb (fst c) (fst d) then c :: d :: rest
      else d :: insert_choice c rest
  end.

Definition sort_choices (choices : list (string * string)) : list (string * string) :=
  foldr insert_choice [] choices.

(** The loop over [catalog.items()] of [build_software_selection_card],
    followed by the sort. *)
Definition selection_choices (catalog : list (string * list string))
  : list (string * string) :=
  sort_choices
    (map (fun '(app_name, versions) =>
            let latest_version := List.last versions "Unknown" in
            ((title app_name ++ " (Latest: " ++ latest_version ++ ")")%string, app_name))
       catalog).

(** [build_software_selection_card], for a catalog given as the list of
    its items. *)
Definition build_software_selection_card (catalog : list (string * list string)) : json :=
  JObj [
    ("type", JStr "AdaptiveCard");
    ("$schema", JStr "http://adaptivecards.io/schemas/adaptive-card.json");
    ("version", JStr "1.4");
    ("body", JList [
       JObj [("type", JStr "TextBlock");
             ("text", JStr "🛠️ Software Installation Center");
             ("weight", JStr "Bolder");
             ("size", JStr "Large");
             ("color", JStr "Accent")];
       JObj [("type", JStr "TextBlock");
             ("text", JStr "Select the software you want to install from our catalog:");
             ("size", JStr "Medium");
             ("spacing", JStr "Medium");
             ("wrap", JBool true)];
       JObj [("type", JStr "Input.ChoiceSet");
             ("id", JStr "selected_software");
             ("style", JStr "expanded");
             ("isMultiSelect", JBool true);
             ("choices",
              JList (map (fun c => JObj [("title", JStr (fst c)); ("value", JStr (snd c))])
                       (selection_choices catalog)));
             ("placeholder", JStr "Select one or more software...")]]);
    ("actions", JList [
       JObj [("type", JStr "Action.Submit");
             ("title", JStr "📋 Show Installation Options");
             ("data", JObj [("action", JStr "show_versions");
                            ("timestamp", JStr "{{DATE()}}")])]])
  ].

(** [build_admin_approval_card] *)
Definition build_admin_approval_card (approval_data : gmap string string) : json :=
  let incident_number := default "N/A" (approval_data !! "incident_number") in
  let software_name := default "Unknown" (approval_data !! "software_name") in
  let version := default "N/A" (approval_data !! "version") in
  let requester := default "Unknown User" (approval_data !! "requester") in
  JObj [
    ("type", JStr "AdaptiveCard");
    ("$schema", JStr "http://adaptivecards.io/schemas/adaptive-card.json");
    ("version", JStr "1.4");
    ("body", JList [
       JObj [("type", JStr "TextBlock");
             ("text", JStr "🔐 ADMIN APPROVAL REQUIRED");
             ("weight", JStr "Bolder");
             ("size", JStr "Large");
             ("color", JStr "Warning");
             ("horizontalAlignment", JStr "Center")];
       JObj [("type", JStr "FactSet");
             ("spacing", JStr "Medium");
             ("facts", JList [
                JObj [("title", JStr "📋 Incident Number:"); ("value", JStr incident_number)];
                JObj [("title", JStr "👤 Requester:"); ("value", JStr requester)];
                JObj [("title", JStr "📦 Software:"); ("value", JStr (title software_name))];
                JObj [("title", JStr "🏷️ Version:"); ("value", JStr version)]])];
       JObj [("type", JStr "TextBlock");
             ("text", JStr "A user wants to install the above software. Do you want to allow this installation?");
             ("size", JStr "Medium");
             ("spacing", JStr "Medium");
             ("wrap", JBool true);
             ("color", JStr "Default")];
       JObj [("type", JStr "Input.Text");
             ("id", JStr "admin_comments");
             ("placeholder", JStr "Optional: Add comments for approval...");
             ("isMultiline", JBool true);
             ("maxLength", JNum 500);
             ("spacing", JStr "Medium")];
       JObj [("type", JStr "Input.Text");
             ("id", JStr "rejection_reason");
             ("placeholder", JStr "If rejecting, please provide reason...");
             ("isMultiline", JBool true);
             ("maxLength", JNum 500);
             ("spacing", JStr "Small")]]);
    ("actions", JList [
       JObj [("type", JStr "Action.Submit");
             ("title", JStr "✅ APPROVE");
             ("style", JStr "positive");
             ("data", JObj [("action", JStr "admin_approve");
                            ("incident_number", JStr incident_number);
                            ("software_name", JStr software_name);
                            ("version", JStr version);
                            ("requester", JStr requester);
                            ("timestamp", JStr "{{DATE()}}")])];
       JObj [("type", JStr "Action.Submit");
             ("title", JStr "❌ REJECT");
             ("style", JStr "destructive");
             ("data", JObj [("action", JStr "admin_reject");
                            ("incident_number", JStr incident_number);
                            ("software_name", JStr software_name);
                            ("version", JStr version);
                            ("requester", JStr requester);
                            ("timestamp", JStr "{{DATE()}}")])]])
  ].

(** [build_feedback_card] *)
Definition build_feedback_card
    (incident_number software_name version installation_status : string) : json :=
  let success := String.eqb installation_status "success" in
  let status_color := if success then "Good" else "Attention" in
  let status_icon := if success then "✅" else "❌" in
  let status_text :=
    if success then "Installation Completed Successfully!" else "Installation Failed" in
  JObj [
    ("type", JStr "AdaptiveCard");
    ("$schema", JStr "http://adaptivecards.io/schemas/adaptive-card.json");
    ("version", JStr "1.4");
    ("body", JList [
       JObj [("type", JStr "TextBlock");
             ("text", JStr (status_icon ++ " " ++ status_text)%string);
             ("weight", JStr "Bolder");
             ("size", JStr "Large");
             ("color", JStr status_color);
             ("horizontalAlignment", JStr "Center")];
       JObj [("type", JStr "FactSet");
             ("spacing", JStr "Medium");
             ("facts", JList [
                JObj [("title", JStr "📋 Incident Number:"); ("value", JStr incident_number)];
                JObj [("title", JStr "📦 Software:"); ("value", JStr (title software_name))];
                JObj [("title", JStr "🏷️ Version:"); ("value", JStr version)]])];
       JObj [("type", JStr "TextBlock");
             ("text", JStr "Please share your feedback about the installation process:");
             ("size", JStr "Medium");
             ("spacing", JStr "Medium");
             ("wrap", JBool true)];
       JObj [("type", JStr "TextBlock");
             ("text", JStr "Rate your experience:");
             ("weight", JStr "Bolder");
             ("spacing", JStr "Medium")];
       JObj [("type", JStr "Input.ChoiceSet");
             ("id", JStr "rating");
             ("style", JStr "expanded");
             ("choices", JList [
                JObj [("title", JStr "⭐⭐⭐⭐⭐ Excellent (5/5)"); ("value", JStr "5")];
                JObj [("title", JStr "⭐⭐⭐⭐ Good (4/5)"); ("value", JStr "4")];
                JObj [("title", JStr "⭐⭐⭐ Average (3/5)"); ("value", JStr "3")];
                JObj [("title", JStr "⭐⭐ Below Average (2/5)"); ("value", JStr "2")];
                JObj [("title", JStr "⭐ Poor (1/5)"); ("value", JStr "1")]]);
             ("value", JStr (if success then "5" else "3"))];
       JObj [("type", JStr "TextBlock");
             ("text", JStr "Additional Comments:");
             ("weight", JStr "Bolder");
             ("spacing", JStr "Medium")];
       JObj [("type", JStr "Input.Text");
             ("id", JStr "feedback_comments");
             ("placeholder", JStr "Please share any comments, suggestions, or issues you experienced...");
             ("isMultiline", JBool true);
             ("maxLength", JNum 1000);
             ("spacing", JStr "Small")]]);
    ("actions", JList [
       JObj [("type", JStr "Action.Submit");
             ("title", JStr "📝 Submit Feedback");
             ("style", JStr "positive");
             ("data", JObj [("action", JStr "submit_feedback");
                            ("incident_number", JStr incident_number);
                            ("software_name", JStr software_name);
                            ("version", JStr version);
                            ("installation_status", JStr installation_status);
                            ("timestamp", JStr "{{DATE()}}")])];
       JObj [("type", JStr "Action.Submit");
             ("title", JStr "Skip Feedback");
             ("data", JObj [("action", JStr "skip_feedback");
                            ("incident_number", JStr incident_number);
                            ("software_name", JStr software_name);
                            ("version", JStr version);
                            ("installation_status", JStr installation_status)])]])
  ].

End Builders.

(** *** Reading a card *)

(** [obj[key]] *)
Definition field (key : string) (j : json) : option json :=
  match j with
  | JObj entries => snd <$> List.find (fun e => String.eqb (fst e) key) entries
  | _ => None
  end.

Definition items (j : option json) : list json :=
  match j with
  | Some (JList l) => l
  | _ => []
  end.

Definition entries (j : option json) : list (string * json) :=
  match j with
  | Some (JObj l) => l
  | _ => []
  end.

(** The [data] of each [Action.Submit] of a card, in order. *)
Definition submit_data (card : json) : list (list (string * json)) :=
  map (fun a => entries (field "data" a)) (items (field "actions" card)).

(** The inputs of a card: the elements of its body that have an [id]. *)
Definition inputs (card : json) : list json :=
  List.filter (fun e => match field "id" e with Some _ => true | None => false end)
    (items (field "body" card)).

(** The input of a card with a given [id]. *)
Definition input (id : string) (card : json) : option json :=
  List.find (fun e => match field "id" e with
                      | Some (JStr i) => String.eqb i id
                      | _ => false
                      end)
    (items (field "body" card)).

(** The values that a choice set offers. *)
Definition choice_values (input : option json) : list json :=
  match input with
  | Some i => omap (field "value") (items (field "choices" i))
  | None => []
  end.

(** A submission [card_data] holds every entry of the [data] of the action
    that was pressed. *)
Definition carries (data : list (string * json)) (card_data : gmap string string) : Prop :=
  forall k v, In (k, JStr v) data -> card_data !! k = Some v.

End Cards.

(** ** Basic facts *)

Lemma Calls_eta c : polled 0 c = c.
Proof. now destruct c. Qed.

Lemma polled_S k c : polled k (Count.rd_exec c) = polled (S k) c.
Proof. unfold polled, Count.rd_exec; cbn. f_equal. lia. Qed.

Lemma rd_exec_polled k c : Count.rd_exec (polled k c) = polled (S k) c.
Proof. reflexivity. Qed.

Lemma only_app ks a b : only ks a -> only ks b -> only ks (a ++ b).
Proof. unfold only. intros. apply Forall_app. split; assumption. Qed.

Lemma only_without ks k evs : ~ In k ks -> only ks evs -> without k evs.
Proof.
  unfold only, without. intros Hk Hf. eapply Forall_impl; [exact Hf |].
  intros e He Heq. apply Hk. now rewrite <- Heq.
Qed.

Lemma state_map_lookup (k : string) :
  state_map !! k =
    if decide (k = "new") then Some "1"
    else if decide (k = "in progress") then Some "2"
    else if decide (k = "closed") then Some "7"
    else if decide (k = "cancelled") then Some "8"
    else None.
Proof.
  unfold state_map. cbn [list_to_map foldr uncurry].
  repeat (rewrite lookup_insert; case_decide; subst; [ repeat case_decide; try done | ]).
  all: try (repeat case_decide; try done; apply lookup_empty).
Qed.

Lemma state_map_unknown (k : string) : ~ In k known_states -> state_map !! k = None.
Proof.
  intros H. rewrite state_map_lookup.
  repeat case_decide; subst; try reflexivity; exfalso; apply H; cbn; tauto.
Qed.

Lemma state_map_truthy (k code : string) :
  state_map !! k = Some code -> PyStr.truthy code = true.
Proof.
  rewrite state_map_lookup.
  repeat case_decide; intros [= <-]; reflexivity.
Qed.

Lemma state_map_in_progress : state_map !! PyStr.lower "in progress" = Some "2".
Proof. now rewrite state_map_lookup. Qed.

Lemma state_map_closed : state_map !! PyStr.lower "closed" = Some "7".
Proof. now rewrite state_map_lookup. Qed.

Lemma state_map_cancelled : state_map !! PyStr.lower "cancelled" = Some "8".
Proof. now rewrite state_map_lookup. Qed.

(** ** Rules for [wp] *)

Section Rules.

Context {A B : Type}.

Lemma wp_elim (m : M A) s Q :
  wp m s Q -> exists r s', m s = (r, s') /\ Q r s'.
Proof. unfold wp. destruct (m s) as [r s']. eauto. Qed.

Lemma wp_ret (a : A) s Q : Q (Val a) s -> wp (mret a) s Q.
Proof. exact id. Qed.

Lemma wp_raise e s (Q : Res A -> St -> Prop) : Q (Raised e) s -> wp (raise e) s Q.
Proof. exact id. Qed.

Lemma wp_call (answer : Calls -> A) count e s Q :
  Q (Val (answer (calls s))) (mkSt (bot s) (count (calls s)) (trace s ++ [e])) ->
  wp (call answer count e) s Q.
Proof. exact id. Qed.

Lemma wp_bind (m : M A) (k : A -> M B) s Q :
  wp m s (fun r s' =>
            match r with
            | Val a => wp (k a) s' Q
            | Raised e => Q (Raised e) s'
            | Spin => Q Spin s'
            end) ->
  wp (m ≫= k) s Q.
Proof.
  unfold wp, mbind, M_bind, bind. destruct (m s) as [[a | e | ] s']; auto.
Qed.

Lemma wp_try_except (m : M A) (h : string -> M A) s Q :
  wp m s (fun r s' =>
            match r with
            | Raised e => wp (h e) s' Q
            | _ => Q r s'
            end) ->
  wp (try_except m h) s Q.
Proof.
  unfold wp, try_except. destruct (m s) as [[a | e | ] s']; auto.
Qed.

End Rules.

Lemma wp_emit e s (Q : Res unit -> St -> Prop) :
  Q (Val tt) (mkSt (bot s) (calls s) (trace s ++ [e])) -> wp (emit e) s Q.
Proof. exact id. Qed.

Lemma wp_set_bot b s (Q : Res unit -> St -> Prop) :
  Q (Val tt) (mkSt b (calls s) (trace s)) -> wp (set_bot b) s Q.
Proof. exact id. Qed.

Lemma if_send (b : bool) (x y : message) :
  (if b then send_activity x else send_activity y) = send_activity (if b then x else y).
Proof. now destruct b. Qed.

Ltac norm_trace :=
  cbn [app]; repeat (rewrite <- List.app_assoc; cbn [app]).

Ltac in_list :=
  repeat (progress (rewrite ?in_app_iff; cbn [In])); tauto.

Ltac run_step :=
  unfold try_except, call, print, send_activity, emit, set_bot, raise, spin,
    mbind, M_bind, bind, mret, M_ret, ret; cbn.

Ltac kinds :=
  unfold only, without;
  repeat first
    [ apply Forall_nil_2
    | apply Forall_cons_2; [ cbn; first [ tauto | congruence | discriminate ] | ] ].

Section Runs.

Variable env : Env.

(** [update_incident_state_sn] always returns; it prints, looks the
    incident up once, and sends at most one PATCH, the one for the first
    record found and the code of [state_map]. *)
Lemma update_incident_state_sn_run inc ns s :
  exists r mid c',
    update_incident_state_sn env inc ns s
      = (Val r, mkSt (bot s) c'
                  (trace s ++ EvPrint (PrUpdating inc ns) :: EvSnGet inc :: mid))
    /\ (c' = Count.sn_get (calls s) \/ c' = Count.sn_patch (Count.sn_get (calls s)))
    /\ only [KPrint; KSnPatch] mid
    /\ (forall sid more code,
          sn_get env (n_sn_get (calls s)) inc = LookupOk (Some sid :: more) ->
          state_map !! PyStr.lower ns = Some code ->
          exists tl, mid = EvSnPatch sid code :: tl /\ only [KPrint] tl)
    /\ (sn_get env (n_sn_get (calls s)) inc = LookupOk [] \/
        state_map !! PyStr.lower ns = None ->
          exists err, r = UpdError err /\ only [KPrint] mid
                      /\ c' = Count.sn_get (calls s)).
Proof.
  unfold update_incident_state_sn. run_step.
  destruct (sn_get env (n_sn_get (calls s)) inc) as [e | [ | [sid | ] more]] eqn:Hlk; cbn.
  - norm_trace. eexists _, _, _. split; [reflexivity |].
    split; [now left |]. split; [kinds |]. split; [discriminate |].
    intros _. eexists. split; [reflexivity |]. split; [kinds | reflexivity].
  - norm_trace. eexists _, [], _. split; [reflexivity |].
    split; [now left |]. split; [kinds |]. split; [discriminate |].
    intros _. eexists. split; [reflexivity |]. split; [kinds | reflexivity].
  - destruct (state_map !! PyStr.lower ns) as [code | ] eqn:Hmap; cbn.
    + rewrite (state_map_truthy _ _ Hmap). cbn.
      destruct (sn_patch env (n_sn_patch (calls s)) sid code) as [e | data]; cbn;
        norm_trace; eexists _, _, _; (split; [reflexivity |]);
        (split; [now right |]); (split; [kinds |]);
        (split; [ intros ? ? ? [= <- _] [= <-]; eexists; split; [reflexivity | kinds]
                | intros [? | ?]; discriminate ]).
    + norm_trace. eexists _, [], _. split; [reflexivity |].
      split; [now left |]. split; [kinds |]. split; [discriminate |].
      intros _. eexists. split; [reflexivity |]. split; [kinds | reflexivity].
  - norm_trace. eexists _, _, _. split; [reflexivity |].
    split; [now left |]. split; [kinds |]. split; [discriminate |].
    intros [? | ?]; [discriminate |].
    eexists. split; [reflexivity |]. split; [kinds | reflexivity].
Qed.

End Runs.

(** ** Ticket-state update *)

(** C9: when the target state is none of "new", "in progress", "closed",
    "cancelled" (compared in lower case), or when the lookup finds no
    incident of that number, [update_incident_state_sn] returns an error
    dict and no PATCH request is sent. *)
Theorem update_incident_state_sn_refuses (env : Env) (inc ns : string) (s : St) :
  ~ In (PyStr.lower ns) known_states \/
  sn_get env (n_sn_get (calls s)) inc = LookupOk [] ->
  exists err evs s',
    update_incident_state_sn env inc ns s = (Val (UpdError err), s')
    /\ trace s' = trace s ++ evs
    /\ without KSnPatch evs
    /\ n_sn_patch (calls s') = n_sn_patch (calls s).
Proof.
  intros H.
  destruct (update_incident_state_sn_run env inc ns s)
    as (r & mid & c' & Hrun & _ & _ & _ & Herr).
  destruct Herr as (err & -> & Hmid & ->).
  { destruct H as [H | H]; [right; now apply state_map_unknown | now left]. }
  exists err, (EvPrint (PrUpdating inc ns) :: EvSnGet inc :: mid), (mkSt (bot s) (Count.sn_get (calls s))
                    (trace s ++ EvPrint (PrUpdating inc ns) :: EvSnGet inc :: mid)).
  split; [exact Hrun |]. split; [reflexivity |]. split; [| reflexivity].
  unfold without. repeat (apply Forall_cons_2; [cbn; discriminate |]).
  apply (only_without [KPrint]); [cbn; intuition discriminate | exact Hmid].
Qed.

Lemma update_incident_state_sn_refuses_witness :
  exists err evs s',
    update_incident_state_sn Sample.env_ok "INC0010001" "Resolved" init
      = (Val (UpdError err), s')
    /\ trace s' = trace init ++ evs
    /\ without KSnPatch evs
    /\ n_sn_patch (calls s') = n_sn_patch (calls init).
Proof.
  apply (update_incident_state_sn_refuses Sample.env_ok "INC0010001" "Resolved" init).
  left. cbn. intuition discriminate.
Defined.

(** ** Card submissions *)

Lemma card_get_Some (card : gmap string string) (key v : string) :
  card !! key = Some v -> card_get card key = v.
Proof. unfold card_get. now intros ->. Qed.

Lemma card_get_empty (card : gmap string string) (key : string) :
  card !! key = None \/ card !! key = Some EmptyString ->
  card_get card key = EmptyString.
Proof. unfold card_get. now intros [-> | ->]. Qed.

(** C10: an "install" submission whose app name or version is missing or
    empty only sends the "please select a version" warning: no incident is
    created, nothing is logged, the bot's fields are unchanged and no
    service is called. *)
Theorem install_needs_app_and_version
    (env : Env) (show : gmap string string -> M unit) (fuel : nat)
    (card : gmap string string) (s : St) :
  card !! "action" = Some "install" ->
  (card !! "app" = None \/ card !! "app" = Some EmptyString) \/
  (card !! "version" = None \/ card !! "version" = Some EmptyString) ->
  _handle_card_submission env show fuel card s
    = (Val tt, mkSt (bot s) (calls s) (trace s ++ [EvSend MsgSelectVersion])).
Proof.
  intros Hact Hmiss.
  unfold _handle_card_submission, try_except, install_branch.
  unfold card_get at 1. rewrite Hact. cbn [default String.eqb Ascii.eqb Bool.eqb].
  destruct Hmiss as [H | H]; rewrite (card_get_empty _ _ H); cbn [PyStr.truthy andb].
  - reflexivity.
  - rewrite andb_false_r. reflexivity.
Qed.

Lemma install_needs_app_and_version_witness :
  _handle_card_submission Sample.env_ok Sample.no_show 0 Sample.install_card_no_version init
    = (Val tt, mkSt (bot init) (calls init) (trace init ++ [EvSend MsgSelectVersion])).
Proof.
  apply (install_needs_app_and_version Sample.env_ok Sample.no_show 0
           Sample.install_card_no_version init).
  - vm_compute. reflexivity.
  - right. left. vm_compute. reflexivity.
Defined.

(** ** The polling loop *)

Section Polling.

Variable env : Env.

Lemma St_same s : mkSt (bot s) (polled 0 (calls s)) (trace s ++ []) = s.
Proof. rewrite Calls_eta, List.app_nil_r. now destruct s. Qed.

(** [k] rounds that find the job still running leave the loop where it
    was, [k] polls later. *)
Lemma check_job_status_rounds (k : nat) :
  forall fuel id s,
    (forall i, (i < k)%nat -> still_running (rd_exec env (n_rd_exec (calls s) + i) id)) ->
    exists evs,
      only [KRdExec; KPrint; KSleep] evs
      /\ check_job_status env (k + fuel) id s
         = check_job_status env fuel id
             (mkSt (bot s) (polled k (calls s)) (trace s ++ evs)).
Proof.
  induction k as [ | k IH]; intros fuel id s Hrun.
  - exists []. split; [kinds |]. now rewrite St_same.
  - destruct (Hrun 0%nat ltac:(lia)) as (status & Hresp & Hfin).
    rewrite Nat.add_0_r in Hresp.
    destruct (IH fuel id
                (mkSt (bot s) (Count.rd_exec (calls s))
                   (trace s ++ [EvRdExec id; EvPrint (PrJobStatus status); EvSleep 5])))
      as (evs & Hevs & Heq).
    { intros i Hi. cbn. specialize (Hrun (S i) ltac:(lia)).
      now replace (S (n_rd_exec (calls s) + i))%nat
        with (n_rd_exec (calls s) + S i)%nat by lia. }
    exists ([EvRdExec id; EvPrint (PrJobStatus status); EvSleep 5] ++ evs).
    split; [apply only_app; [kinds | exact Hevs] |].
    cbn [Nat.add check_job_status]. run_step. rewrite Hresp. cbn. rewrite Hfin. cbn.
    norm_trace. cbn in Heq. rewrite <- List.app_assoc in Heq.
    rewrite polled_S in Heq. exact Heq.
Qed.

(** Whatever the executor answers and whatever the fuel, the loop only
    polls, prints and sleeps. *)
Lemma check_job_status_frame (fuel : nat) :
  forall id s,
    exists r k evs,
      check_job_status env fuel id s
        = (r, mkSt (bot s) (polled k (calls s)) (trace s ++ evs))
      /\ only [KRdExec; KPrint; KSleep] evs
      /\ (forall e, r = Raised e -> In e ["requests.get"; "status"]).
Proof.
  induction fuel as [ | fuel IH]; intros id s.
  - exists Spin, 0%nat, []. split; [| split; [kinds | discriminate]].
    cbn. unfold spin. now rewrite St_same.
  - cbn [check_job_status]. run_step.
    destruct (rd_exec env (n_rd_exec (calls s)) id) as [ | code [status | ]]; cbn.
    + eexists _, 1%nat, _. split; [reflexivity |].
      split; [kinds | intros ? [= <-]; cbn; tauto].
    + destruct (code =? 200)%Z; cbn.
      * destruct (is_finished status); cbn.
        -- norm_trace. eexists _, 1%nat, _. split; [reflexivity |].
           split; [kinds | discriminate].
        -- norm_trace.
           destruct (IH id (mkSt (bot s) (Count.rd_exec (calls s))
                         (trace s ++ [EvRdExec id; EvPrint (PrJobStatus status); EvSleep 5])))
             as (r & k & evs & Heq & Hevs & Hexn).
           cbn in Heq. rewrite Heq, polled_S. rewrite <- List.app_assoc.
           eexists _, _, _. split; [reflexivity |].
           split; [apply only_app; [kinds | exact Hevs] | exact Hexn].
      * eexists _, 1%nat, _. split; [reflexivity |]. split; [kinds | discriminate].
    + destruct (code =? 200)%Z; cbn;
        eexists _, 1%nat, _; (split; [reflexivity |]);
        (split; [kinds | first [discriminate | intros ? [= <-]; cbn; tauto]]).
Qed.

End Polling.

Arguments update_incident_state_sn : simpl never.
Arguments check_job_status : simpl never.

Section Calls.

Variable env : Env.

Lemma wp_update inc ns s (Q : Res update_result -> St -> Prop) :
  (forall r mid c',
      c' = Count.sn_get (calls s) \/ c' = Count.sn_patch (Count.sn_get (calls s)) ->
      only [KPrint; KSnPatch] mid ->
      (forall sid more code,
          sn_get env (n_sn_get (calls s)) inc = LookupOk (Some sid :: more) ->
          state_map !! PyStr.lower ns = Some code ->
          exists tl, mid = EvSnPatch sid code :: tl /\ only [KPrint] tl) ->
      Q (Val r) (mkSt (bot s) c'
                   (trace s ++ EvPrint (PrUpdating inc ns) :: EvSnGet inc :: mid))) ->
  wp (update_incident_state_sn env inc ns) s Q.
Proof.
  intros H.
  destruct (update_incident_state_sn_run env inc ns s)
    as (r & mid & c' & Hrun & Hc & Hmid & Hpatch & _).
  unfold wp. rewrite Hrun. now apply H.
Qed.

Lemma wp_check_frame fuel id s (Q : Res string -> St -> Prop) :
  (forall r k evs,
      only [KRdExec; KPrint; KSleep] evs ->
      (forall e, r = Raised e -> In e ["requests.get"; "status"]) ->
      Q r (mkSt (bot s) (polled k (calls s)) (trace s ++ evs))) ->
  wp (check_job_status env fuel id) s Q.
Proof.
  intros H.
  destruct (check_job_status_frame env fuel id s) as (r & k & evs & Hrun & Hevs & Hexn).
  unfold wp. rewrite Hrun. now apply H.
Qed.

Lemma wp_run_rundeck_job app version s (Q : Res (option Z) -> St -> Prop) :
  (let s1 := mkSt (bot s) (Count.rd_run (calls s))
               (trace s ++ [EvRdRun app (job_version version)]) in
   match rd_run env (n_rd_run (calls s)) app (job_version version) with
   | HttpRaised => Q (Raised "requests.post") s1
   | HttpResp status_code data =>
       if (status_code =? 200)%Z then
         match data with
         | Some id => Q (Val (Some id)) s1
         | None => Q (Raised "id") s1
         end
       else
         Q (Val None)
           (mkSt (bot s) (Count.rd_run (calls s))
              (trace s ++ [EvRdRun app (job_version version);
                           EvPrint (PrTriggerFailed status_code)]))
   end) ->
  wp (run_rundeck_job env app version) s Q.
Proof.
  unfold wp, run_rundeck_job, job_version. run_step.
  destruct (rd_run env _ _ _) as [ | code [i | ]]; cbn;
    try (destruct (code =? 200)%Z; cbn); norm_trace; exact (fun H => H).
Qed.

(** After [k] rounds of "running", a final status ends the loop, which
    returns it. *)
Lemma check_job_status_final k fuel id s final :
  (forall i, (i < k)%nat -> still_running (rd_exec env (n_rd_exec (calls s) + i) id)) ->
  rd_exec env (n_rd_exec (calls s) + k) id = HttpResp 200 (Some final) ->
  is_finished final = true ->
  (k < fuel)%nat ->
  exists evs,
    only [KRdExec; KPrint; KSleep] evs
    /\ check_job_status env fuel id s
       = (Val final,
          mkSt (bot s) (polled (S k) (calls s))
            (trace s ++ evs ++ [EvRdExec id; EvPrint (PrJobStatus final)])).
Proof.
  intros Hrun Hresp Hfin Hlt.
  replace fuel with (k + S (fuel - S k))%nat by lia.
  destruct (check_job_status_rounds env k (S (fuel - S k)) id s Hrun)
    as (evs & Hevs & ->).
  exists evs. split; [exact Hevs |].
  unfold check_job_status. run_step.
  replace (k + n_rd_exec (calls s))%nat with (n_rd_exec (calls s) + k)%nat by lia.
  rewrite Hresp. cbn. rewrite Hfin. cbn.
  rewrite rd_exec_polled. rewrite <- !List.app_assoc. reflexivity.
Qed.

(** After [k] rounds of "running", an answer with a status code other
    than 200 ends the loop at once, with "error". *)
Lemma check_job_status_error k fuel id s code field :
  (forall i, (i < k)%nat -> still_running (rd_exec env (n_rd_exec (calls s) + i) id)) ->
  rd_exec env (n_rd_exec (calls s) + k) id = HttpResp code field ->
  code <> 200%Z ->
  (k < fuel)%nat ->
  exists evs,
    only [KRdExec; KPrint; KSleep] evs
    /\ check_job_status env fuel id s
       = (Val "error",
          mkSt (bot s) (polled (S k) (calls s)) (trace s ++ evs ++ [EvRdExec id])).
Proof.
  intros Hrun Hresp Hcode Hlt.
  replace fuel with (k + S (fuel - S k))%nat by lia.
  destruct (check_job_status_rounds env k (S (fuel - S k)) id s Hrun)
    as (evs & Hevs & ->).
  exists evs. split; [exact Hevs |].
  unfold check_job_status. run_step.
  replace (k + n_rd_exec (calls s))%nat with (n_rd_exec (calls s) + k)%nat by lia.
  rewrite Hresp. cbn.
  destruct (Z.eqb_spec code 200) as [-> | _]; [contradiction |]. cbn.
  rewrite rd_exec_polled. rewrite <- !List.app_assoc. reflexivity.
Qed.

(** While every answer is "running", the loop has not returned. *)
Lemma check_job_status_spins k id s :
  (forall i, (i < k)%nat -> still_running (rd_exec env (n_rd_exec (calls s) + i) id)) ->
  exists evs,
    only [KRdExec; KPrint; KSleep] evs
    /\ check_job_status env k id s
       = (Spin, mkSt (bot s) (polled k (calls s)) (trace s ++ evs)).
Proof.
  intros Hrun.
  destruct (check_job_status_rounds env k 0 id s Hrun) as (evs & Hevs & Heq).
  rewrite Nat.add_0_r in Heq. exists evs. split; [exact Hevs |].
  rewrite Heq. reflexivity.
Qed.

End Calls.

(** ** Stepping through a handler *)

Ltac wp_simpl :=
  cbv beta iota zeta;
  cbn [bot calls trace n_sn_get n_sn_patch n_sn_post n_rd_run n_rd_exec n_db_log
       n_db_feedback n_llm Count.sn_get Count.sn_patch Count.sn_post Count.rd_run
       Count.rd_exec Count.db_log Count.db_feedback Count.llm polled].

Ltac wp_prim :=
  lazymatch goal with
  | |- wp (mbind _ _) _ _ => apply wp_bind
  | |- wp (send_activity _) _ _ => apply wp_emit
  | |- wp (print _) _ _ => apply wp_emit
  | |- wp (emit _) _ _ => apply wp_emit
  | |- wp (mret _) _ _ => apply wp_ret
  | |- wp (raise _) _ _ => apply wp_raise
  | |- wp (call _ _ _) _ _ => apply wp_call
  | |- wp (log_software_request _ _ _ _ _) _ _ => apply wp_call
  | |- wp (log_feedback _ _ _ _ _ _ _) _ _ => apply wp_call
  | |- wp (set_bot _) _ _ => apply wp_set_bot
  | |- wp _reset_admin_mode _ _ => apply wp_set_bot
  | |- wp (_send_feedback_card _ _ _ _) _ _ => unfold _send_feedback_card
  | |- wp (try_except _ _) _ _ => apply wp_try_except
  | |- wp (if upd_success _ then send_activity _ else send_activity _) _ _ =>
      rewrite if_send
  end.

Ltac wp_run := repeat (wp_prim; wp_simpl).

Ltac kinds_all :=
  unfold only, without in *;
  repeat first
    [ apply Forall_nil_2
    | apply Forall_cons_2;
      [ cbn; first [ tauto | congruence | discriminate ] | ]
    | apply Forall_app_2;
      [ eapply Forall_impl;
        [ eassumption | cbn; intros; intuition congruence ] | ]
    | solve [ eapply Forall_impl;
              [ eassumption | cbn; intros; intuition congruence ] ] ].

(** The steps of [_handle_admin_approval] up to the answer to the job
    trigger. *)
Ltac approval_prefix r1 mid1 Hmid1 Hpatch1 :=
  unfold _handle_admin_approval; wp_simpl;
  apply wp_bind, wp_update; intros r1 mid1 ? [-> | ->] Hmid1 Hpatch1; wp_run;
  apply wp_run_rundeck_job; wp_simpl.

Section Approval.

Variable env : Env.
Variable fuel : nat.
Variable card : gmap string string.
Variable s : St.

Let inc := card_get card "incident_number".
Let sw := card_get card "software_name".
Let ver := card_get card "version".

(** A failed trigger: the failure notice and the feedback card follow,
    nothing is polled. *)
Lemma approval_trigger_failed :
  trigger_failed (rd_run env (n_rd_run (calls s)) sw (job_version ver)) ->
  wp (_handle_admin_approval env fuel card) s
    (fun r s' =>
       r = Val tt /\ bot s' = bot s
       /\ n_rd_exec (calls s') = n_rd_exec (calls s)
       /\ exists mid msg pr,
           only [KPrint; KSnPatch] mid /\ only [KPrint] pr
           /\ trace s' =
                trace s ++ EvPrint (PrUpdating inc "in progress") :: EvSnGet inc :: mid
                  ++ [EvSend msg; EvSend (MsgApproved inc sw ver);
                      EvLog inc sw ver "Admin approved the software installation request";
                      EvRdRun sw (job_version ver)]
                  ++ pr
                  ++ [EvSend MsgTriggerFailed; EvSend MsgFeedbackPrompt;
                      EvSend (CardFeedback inc sw ver "failed")]).
Proof.
  intros Hfail. subst inc sw ver.
  approval_prefix r1 mid1 Hmid1 Hpatch1;
    destruct (rd_run env _ _ _) as [ | code data] eqn:Hans; cbn in Hfail;
    try contradiction;
    (destruct (Z.eqb_spec code 200) as [-> | Hne];
     [ destruct Hfail as [Hfail | [_ ->]]; [congruence |]; cbn [id_truthy Z.eqb]
     | cbn [id_truthy] ]);
    wp_run; (split; [reflexivity |]); (split; [reflexivity |]);
    (split; [reflexivity |]).
  1, 3: exists mid1, (if upd_success r1
                 then MsgSnInProgress (card_get card "incident_number")
                 else MsgSnUpdateFailed r1), [].
  3, 4: exists mid1, (if upd_success r1
                 then MsgSnInProgress (card_get card "incident_number")
                 else MsgSnUpdateFailed r1), [EvPrint (PrTriggerFailed code)].
  all: split; [exact Hmid1 |]; split; [kinds |]; norm_trace; reflexivity.
Qed.

(** While the executor answers "running", the handler is still in its
    polling loop, and the bot's fields are as they were. *)
Lemma approval_spins id :
  rd_run env (n_rd_run (calls s)) sw (job_version ver) = HttpResp 200 (Some id) ->
  id <> 0%Z ->
  (forall i, (i < fuel)%nat -> still_running (rd_exec env (n_rd_exec (calls s) + i) id)) ->
  wp (_handle_admin_approval env fuel card) s
    (fun r s' => r = Spin /\ bot s' = bot s
                 /\ n_rd_exec (calls s') = (fuel + n_rd_exec (calls s))%nat).
Proof.
  intros Htrig Hid Hrun. subst inc sw ver.
  assert (Hz : (id =? 0)%Z = false) by now apply Z.eqb_neq.
  approval_prefix r1 mid1 Hmid1 Hpatch1; rewrite Htrig; cbn [Z.eqb Pos.eqb id_truthy];
    rewrite Hz; wp_run.
  all: match goal with |- wp _ ?s1 _ =>
         destruct (check_job_status_spins env fuel id s1 Hrun) as (evs & _ & Heq)
       end;
    unfold wp; rewrite Heq; cbn; auto.
Qed.

(** The first status query answered with a code other than 200 ends the
    run: no further poll, no ticket update, the request is logged and
    reported as failed. *)
Lemma approval_poll_error id k code field :
  rd_run env (n_rd_run (calls s)) sw (job_version ver) = HttpResp 200 (Some id) ->
  id <> 0%Z ->
  (forall i, (i < k)%nat -> still_running (rd_exec env (n_rd_exec (calls s) + i) id)) ->
  rd_exec env (n_rd_exec (calls s) + k) id = HttpResp code field ->
  code <> 200%Z ->
  (k < fuel)%nat ->
  wp (_handle_admin_approval env fuel card) s
    (fun r s' =>
       r = Val tt /\ bot s' = new_bot
       /\ n_rd_exec (calls s') = (S k + n_rd_exec (calls s))%nat
       /\ n_sn_get (calls s') = S (n_sn_get (calls s))
       /\ exists mid msg evs,
           only [KPrint; KSnPatch] mid /\ only [KRdExec; KPrint; KSleep] evs
           /\ trace s' =
                trace s ++ EvPrint (PrUpdating inc "in progress") :: EvSnGet inc :: mid
                  ++ [EvSend msg; EvSend (MsgApproved inc sw ver);
                      EvLog inc sw ver "Admin approved the software installation request";
                      EvRdRun sw (job_version ver); EvSend (MsgJobStarted id)]
                  ++ evs
                  ++ [EvRdExec id; EvSend MsgStatusUnknown;
                      EvLog inc sw ver "Rundeck job error";
                      EvSend MsgFeedbackPrompt;
                      EvSend (CardFeedback inc sw ver "failed")]).
Proof.
  intros Htrig Hid Hrun Hresp Hcode Hlt. subst inc sw ver.
  assert (Hz : (id =? 0)%Z = false) by now apply Z.eqb_neq.
  approval_prefix r1 mid1 Hmid1 Hpatch1; rewrite Htrig; cbn [Z.eqb Pos.eqb id_truthy];
    rewrite Hz; wp_run.
  all: match goal with |- wp _ ?s1 _ =>
         destruct (check_job_status_error env k fuel id s1 code field Hrun Hresp Hcode Hlt)
           as (evs & Hevs & Heq)
       end;
    unfold wp at 1; rewrite Heq; cbn [String.eqb Ascii.eqb Bool.eqb existsb orb];
    wp_run; (split; [reflexivity |]); (split; [reflexivity |]);
    (split; [reflexivity |]); (split; [reflexivity |]);
    exists mid1, (if upd_success r1
                  then MsgSnInProgress (card_get card "incident_number")
                  else MsgSnUpdateFailed r1), evs;
    (split; [exact Hmid1 |]); (split; [exact Hevs |]); norm_trace; reflexivity.
Qed.

(** A final status from the executor: the ticket update for it is
    issued, the outcome is sent and logged, the feedback card follows. *)
Lemma approval_concluded id k final target code note logged status :
  concluded sw ver final target code note logged status ->
  rd_run env (n_rd_run (calls s)) sw (job_version ver) = HttpResp 200 (Some id) ->
  id <> 0%Z ->
  (forall i, (i < k)%nat -> still_running (rd_exec env (n_rd_exec (calls s) + i) id)) ->
  rd_exec env (n_rd_exec (calls s) + k) id = HttpResp 200 (Some final) ->
  (k < fuel)%nat ->
  wp (_handle_admin_approval env fuel card) s
    (fun r s' =>
       r = Val tt /\ bot s' = new_bot
       /\ exists mid msg evs mid2,
           only [KPrint; KSnPatch] mid /\ only [KRdExec; KPrint; KSleep] evs
           /\ only [KPrint; KSnPatch] mid2
           /\ (forall sid more,
                 sn_get env (S (n_sn_get (calls s))) inc = LookupOk (Some sid :: more) ->
                 exists tl, mid2 = EvSnPatch sid code :: tl /\ only [KPrint] tl)
           /\ trace s' =
                trace s ++ EvPrint (PrUpdating inc "in progress") :: EvSnGet inc :: mid
                  ++ [EvSend msg; EvSend (MsgApproved inc sw ver);
                      EvLog inc sw ver "Admin approved the software installation request";
                      EvRdRun sw (job_version ver); EvSend (MsgJobStarted id)]
                  ++ evs
                  ++ [EvRdExec id; EvPrint (PrJobStatus final);
                      EvPrint (PrUpdating inc target); EvSnGet inc]
                  ++ mid2
                  ++ [EvSend note; EvLog inc sw ver logged;
                      EvSend MsgFeedbackPrompt;
                      EvSend (CardFeedback inc sw ver status)]).
Proof.
  intros Hconcl Htrig Hid Hrun Hresp Hlt. subst inc sw ver.
  assert (Hz : (id =? 0)%Z = false) by now apply Z.eqb_neq.
  assert (Hfin : is_finished final = true) by now destruct Hconcl.
  approval_prefix r1 mid1 Hmid1 Hpatch1; rewrite Htrig; cbn [Z.eqb Pos.eqb id_truthy];
    rewrite Hz; wp_run.
  all: match goal with |- wp _ ?s1 _ =>
         destruct (check_job_status_final env k fuel id s1 final Hrun Hresp Hfin Hlt)
           as (evs & Hevs & Heq)
       end;
    unfold wp at 1; rewrite Heq.
  all: destruct Hconcl; cbn [String.eqb Ascii.eqb Bool.eqb existsb orb];
    wp_simpl; apply wp_bind, wp_bind, wp_update; intros r2 mid2 c2 Hc2 Hmid2 Hpatch2;
    wp_run; (split; [reflexivity |]); (split; [reflexivity |]);
    exists mid1, (if upd_success r1
                  then MsgSnInProgress (card_get card "incident_number")
                  else MsgSnUpdateFailed r1), evs, mid2;
    (split; [exact Hmid1 |]); (split; [exact Hevs |]); (split; [exact Hmid2 |]);
    (split; [| norm_trace; reflexivity]);
    intros sid more Hlk; apply (Hpatch2 sid more _ Hlk);
    first [exact state_map_closed | exact state_map_cancelled].
Qed.

(** Whatever the outside answers and in whatever state the bot is: the
    ticket update and the approval notice come first, the job is
    triggered exactly once, and status queries are made only after a
    trigger that gave an execution id. *)
Lemma approval_any :
  wp (_handle_admin_approval env fuel card) s
    (fun r s' =>
       exists mid msg post,
         trace s' =
           trace s ++ EvPrint (PrUpdating inc "in progress") :: EvSnGet inc :: mid
             ++ [EvSend msg; EvSend (MsgApproved inc sw ver);
                 EvLog inc sw ver "Admin approved the software installation request";
                 EvRdRun sw (job_version ver)]
             ++ post
         /\ only [KPrint; KSnPatch] mid
         /\ without KRdRun post
         /\ n_rd_run (calls s') = S (n_rd_run (calls s))
         /\ (without KRdExec post \/
             exists id, rd_run env (n_rd_run (calls s)) sw (job_version ver)
                        = HttpResp 200 (Some id) /\ id <> 0%Z)
         /\ (forall e, r = Raised e ->
                       In e ["requests.post"; "id"; "requests.get"; "status"])
         /\ (forall sid more,
               sn_get env (n_sn_get (calls s)) inc = LookupOk (Some sid :: more) ->
               exists tl, mid = EvSnPatch sid "2" :: tl /\ only [KPrint] tl)).
Proof.
  subst inc sw ver.
  approval_prefix r1 mid1 Hmid1 Hpatch1;
    destruct (rd_run env _ _ _) as [ | code [id | ]] eqn:Hans;
    try (destruct (Z.eqb_spec code 200) as [-> | Hne]);
    try (cbn [id_truthy]; destruct (Z.eqb_spec id 0) as [-> | Hid]);
    cbn [id_truthy]; wp_run.
  all: try (apply wp_check_frame; intros [final | e | ] k evs Hevs Hexn; wp_simpl;
            [ destruct (String.eqb final "succeeded");
              [ | destruct (existsb (String.eqb final) ["failed"; "aborted"]) ];
              wp_simpl;
              try (apply wp_bind, wp_bind, wp_update; intros r2 mid2 c2 [-> | ->] Hmid2 _);
              wp_run
            | | ]).
  all: norm_trace; eexists mid1, _, _; (split; [reflexivity |]);
    (split; [exact Hmid1 |]); (split; [kinds_all |]); (split; [reflexivity |]);
    (split;
     [ first [ left; solve [kinds_all] | right; exists id; split; [reflexivity | assumption] ]
     | split;
       [ intros e' He'; first [ discriminate He'
                              | injection He' as <-; cbn; tauto
                              | injection He' as <-;
                                destruct (Hexn _ eq_refl) as [<- | [<- | []]]; cbn; tauto ]
       | intros sid more Hlk; exact (Hpatch1 sid more _ Hlk state_map_in_progress) ] ]).
Qed.

End Approval.

(** ** Rejection *)

Section Rejection.

Variable env : Env.
Variable card : gmap string string.
Variable s : St.

Let inc := card_get card "incident_number".
Let sw := card_get card "software_name".
Let ver := card_get card "version".
Let reason := PyStr.or_else (card_get card "rejection_reason") "No reason provided".

Lemma rejection_any :
  wp (_handle_admin_rejection env card) s
    (fun r s' =>
       r = Val tt /\ bot s' = new_bot
       /\ n_rd_run (calls s') = n_rd_run (calls s)
       /\ n_rd_exec (calls s') = n_rd_exec (calls s)
       /\ exists mid upd,
           only [KPrint; KSnPatch] mid
           /\ (forall sid more,
                 sn_get env (n_sn_get (calls s)) inc = LookupOk (Some sid :: more) ->
                 exists tl, mid = EvSnPatch sid "8" :: tl /\ only [KPrint] tl)
           /\ trace s' =
                trace s ++ EvPrint (PrUpdating inc "cancelled") :: EvSnGet inc :: mid
                  ++ [EvSend (if upd_success upd then MsgSnCancelled inc
                              else MsgSnUpdateFailed upd);
                      EvSend (MsgRejected inc sw ver reason);
                      EvLog inc sw ver
                        "Admin rejected the request of Software Installation"]).
Proof.
  subst inc sw ver reason.
  unfold _handle_admin_rejection. wp_simpl.
  apply wp_bind, wp_update. intros r1 mid1 ? [-> | ->] Hmid1 Hpatch1; wp_run.
  all: repeat (split; [reflexivity |]); exists mid1, r1;
    (split; [exact Hmid1 |]);
    (split; [intros sid more Hlk;
             exact (Hpatch1 sid more _ Hlk state_map_cancelled) |]);
    norm_trace; reflexivity.
Qed.

End Rejection.

(** ** The polling loop has no ceiling *)

(** C1, as the code has it: while every status query is answered
    "running" (status code 200 and a status that is not final) the loop only
    polls, prints and sleeps, and the bot's fields stay as they are; there
    is no maximum number of polls: after [n] such answers, for any [n], the
    loop has not returned.  It returns when a query gives a final status,
    and then returns that status. *)
Theorem polling_continues_while_running (env : Env) (n : nat) (id : Z) (s : St) :
  (forall i, (i < n)%nat -> still_running (rd_exec env (n_rd_exec (calls s) + i) id)) ->
  (exists evs s',
      check_job_status env n id s = (Spin, s')
      /\ bot s' = bot s
      /\ trace s' = trace s ++ evs
      /\ only [KRdExec; KPrint; KSleep] evs
      /\ n_rd_exec (calls s') = (n + n_rd_exec (calls s))%nat)
  /\ (forall final fuel,
        rd_exec env (n_rd_exec (calls s) + n) id = HttpResp 200 (Some final) ->
        is_finished final = true ->
        (n < fuel)%nat ->
        exists s',
          check_job_status env fuel id s = (Val final, s')
          /\ bot s' = bot s
          /\ n_rd_exec (calls s') = (S n + n_rd_exec (calls s))%nat).
Proof.
  intros Hrun. split.
  - destruct (check_job_status_spins env n id s Hrun) as (evs & Hevs & Heq).
    eexists evs, _. split; [exact Heq |]. cbn. auto.
  - intros final fuel Hresp Hfin Hlt.
    destruct (check_job_status_final env n fuel id s final Hrun Hresp Hfin Hlt)
      as (evs & Hevs & Heq).
    eexists. split; [exact Heq |]. cbn. auto.
Qed.

Lemma still_running_sample i id :
  still_running (rd_exec Sample.env_running i id).
Proof. exists "running". split; reflexivity. Qed.

Lemma polling_continues_while_running_witness :
  (exists evs s',
      check_job_status Sample.env_running 5 42 init = (Spin, s')
      /\ bot s' = bot init
      /\ trace s' = trace init ++ evs
      /\ only [KRdExec; KPrint; KSleep] evs
      /\ n_rd_exec (calls s') = (5 + n_rd_exec (calls init))%nat)
  /\ (forall final fuel,
        rd_exec Sample.env_running (n_rd_exec (calls init) + 5) 42
          = HttpResp 200 (Some final) ->
        is_finished final = true ->
        (5 < fuel)%nat ->
        exists s',
          check_job_status Sample.env_running fuel 42 init = (Val final, s')
          /\ bot s' = bot init
          /\ n_rd_exec (calls s') = (6 + n_rd_exec (calls init))%nat).
Proof.
  apply (polling_continues_while_running Sample.env_running 5 42 init).
  intros i _. apply still_running_sample.
Defined.

(** C1 as the specification states it fails: with an executor that keeps
    answering "running", the approval handler has not finished after any
    number of polls. *)
Lemma approval_never_stops_polling :
  ~ exists fuel r s',
      _handle_admin_approval Sample.env_running fuel Sample.approve_card init = (r, s')
      /\ r <> Spin.
Proof.
  intros (fuel & r & s' & Heq & Hne).
  destruct (wp_elim _ _ _
              (approval_spins Sample.env_running fuel Sample.approve_card init 42
                 eq_refl ltac:(discriminate)
                 (fun i _ => still_running_sample _ _)))
    as (r' & s'' & Heq' & -> & _).
  rewrite Heq in Heq'. injection Heq' as -> _. now apply Hne.
Qed.

(** ** Approval: trigger and outcome *)

(** C2, as the code has it: when the job trigger fails (an answer with a
    status code other than 200, or an execution id equal to 0) the handler
    sends the failure notice and then enters the feedback stage: the
    feedback card, with installation status "failed", is the last thing
    sent.  No status query is made. *)
Theorem trigger_failure_goes_to_feedback
    (env : Env) (fuel : nat) (card : gmap string string) (s : St) :
  let inc := card_get card "incident_number" in
  let sw := card_get card "software_name" in
  let ver := card_get card "version" in
  trigger_failed (rd_run env (n_rd_run (calls s)) sw (job_version ver)) ->
  exists pre s',
    _handle_admin_approval env fuel card s = (Val tt, s')
    /\ trace s' =
         trace s ++ pre
           ++ [EvSend MsgTriggerFailed; EvSend MsgFeedbackPrompt;
               EvSend (CardFeedback inc sw ver "failed")]
    /\ In (EvRdRun sw (job_version ver)) pre
    /\ without KRdExec pre
    /\ n_rd_exec (calls s') = n_rd_exec (calls s)
    /\ feedback_card_sent (trace s').
Proof.
  intros inc sw ver Hfail.
  destruct (wp_elim _ _ _ (approval_trigger_failed env fuel card s Hfail))
    as (r & s' & Hrun & -> & _ & Hn & mid & msg & pr & Hmid & Hpr & Htr).
  fold inc sw ver in Htr.
  exists (EvPrint (PrUpdating inc "in progress") :: EvSnGet inc :: mid
            ++ [EvSend msg; EvSend (MsgApproved inc sw ver);
                EvLog inc sw ver "Admin approved the software installation request";
                EvRdRun sw (job_version ver)] ++ pr), s'.
  split; [exact Hrun |].
  split; [rewrite Htr; norm_trace; reflexivity |].
  split; [in_list |].
  split; [kinds_all |]. split; [exact Hn |].
  exists inc, sw, ver, "failed". rewrite Htr. in_list.
Qed.

Lemma trigger_failure_goes_to_feedback_witness :
  exists pre s',
    _handle_admin_approval Sample.env_trigger_500 3 Sample.approve_card init = (Val tt, s')
    /\ trace s' =
         trace init ++ pre
           ++ [EvSend MsgTriggerFailed; EvSend MsgFeedbackPrompt;
               EvSend (CardFeedback (card_get Sample.approve_card "incident_number")
                         (card_get Sample.approve_card "software_name")
                         (card_get Sample.approve_card "version") "failed")]
    /\ In (EvRdRun (card_get Sample.approve_card "software_name")
             (job_version (card_get Sample.approve_card "version"))) pre
    /\ without KRdExec pre
    /\ n_rd_exec (calls s') = n_rd_exec (calls init)
    /\ feedback_card_sent (trace s').
Proof.
  apply (trigger_failure_goes_to_feedback Sample.env_trigger_500 3 Sample.approve_card init).
  cbn. left. discriminate.
Defined.

(** C2 as the specification states it fails: after a failed trigger the
    feedback card is sent, and no PATCH setting the ticket to cancelled
    (code "8") is. *)
Lemma trigger_failure_sends_feedback_card :
  exists s',
    _handle_card_submission Sample.env_trigger_500 Sample.no_show 3 Sample.approve_card init
      = (Val tt, s')
    /\ In (EvSend (CardFeedback "INC0010001" "zoom" "5.0" "failed")) (trace s')
    /\ ~ In (EvSnPatch "51d0a7" "8") (trace s').
Proof.
  eexists. split; [vm_compute; reflexivity |].
  split; [cbn; tauto |].
  cbn. intuition discriminate.
Qed.

(** C6, as the code has it: a status query answered with a status code
    other than 200 is not retried.  The loop returns "error" at once;
    the handler then reports that the status could not be determined, logs
    "Rundeck job error", sends the feedback card with status "failed" and
    clears the pending approval.  The failing query is the last one made
    and the ticket is not updated again. *)
Theorem poll_error_ends_the_request
    (env : Env) (fuel : nat) (card : gmap string string) (s : St)
    (id : Z) (k : nat) (code : Z) (field : option string) :
  let inc := card_get card "incident_number" in
  let sw := card_get card "software_name" in
  let ver := card_get card "version" in
  rd_run env (n_rd_run (calls s)) sw (job_version ver) = HttpResp 200 (Some id) ->
  id <> 0%Z ->
  (forall i, (i < k)%nat -> still_running (rd_exec env (n_rd_exec (calls s) + i) id)) ->
  rd_exec env (n_rd_exec (calls s) + k) id = HttpResp code field ->
  code <> 200%Z ->
  (k < fuel)%nat ->
  exists pre s',
    _handle_admin_approval env fuel card s = (Val tt, s')
    /\ bot s' = new_bot
    /\ n_rd_exec (calls s') = (S k + n_rd_exec (calls s))%nat
    /\ n_sn_get (calls s') = S (n_sn_get (calls s))
    /\ trace s' =
         trace s ++ pre
           ++ [EvRdExec id; EvSend MsgStatusUnknown;
               EvLog inc sw ver "Rundeck job error";
               EvSend MsgFeedbackPrompt;
               EvSend (CardFeedback inc sw ver "failed")].
Proof.
  intros inc sw ver Htrig Hid Hrun Hresp Hcode Hlt.
  destruct (wp_elim _ _ _
              (approval_poll_error env fuel card s id k code field
                 Htrig Hid Hrun Hresp Hcode Hlt))
    as (r & s' & Heq & -> & Hbot & Hn & Hg & mid & msg & evs & _ & _ & Htr).
  fold inc sw ver in Htr.
  exists (EvPrint (PrUpdating inc "in progress") :: EvSnGet inc :: mid
            ++ [EvSend msg; EvSend (MsgApproved inc sw ver);
                EvLog inc sw ver "Admin approved the software installation request";
                EvRdRun sw (job_version ver); EvSend (MsgJobStarted id)] ++ evs), s'.
  split; [exact Heq |]. split; [exact Hbot |].
  split; [exact Hn |]. split; [exact Hg |].
  rewrite Htr. norm_trace. reflexivity.
Qed.

Lemma poll_error_ends_the_request_witness :
  exists pre s',
    _handle_admin_approval Sample.env_poll_500 3 Sample.approve_card init = (Val tt, s')
    /\ bot s' = new_bot
    /\ n_rd_exec (calls s') = (1 + n_rd_exec (calls init))%nat
    /\ n_sn_get (calls s') = S (n_sn_get (calls init))
    /\ trace s' =
         trace init ++ pre
           ++ [EvRdExec 42; EvSend MsgStatusUnknown;
               EvLog (card_get Sample.approve_card "incident_number")
                 (card_get Sample.approve_card "software_name")
                 (card_get Sample.approve_card "version") "Rundeck job error";
               EvSend MsgFeedbackPrompt;
               EvSend (CardFeedback (card_get Sample.approve_card "incident_number")
                         (card_get Sample.approve_card "software_name")
                         (card_get Sample.approve_card "version") "failed")].
Proof.
  apply (poll_error_ends_the_request Sample.env_poll_500 3 Sample.approve_card init
           42 0 500 None).
  - reflexivity.
  - discriminate.
  - intros i Hi. lia.
  - reflexivity.
  - discriminate.
  - lia.
Defined.

(** C6 as the specification states it fails: the very first status query
    is answered with a 500, and with that single query the request is
    reported and logged as failed. *)
Lemma first_poll_error_is_final :
  exists s',
    _handle_card_submission Sample.env_poll_500 Sample.no_show 3 Sample.approve_card init
      = (Val tt, s')
    /\ n_rd_exec (calls s') = 1%nat
    /\ In (EvSend MsgStatusUnknown) (trace s')
    /\ In (EvLog "INC0010001" "zoom" "5.0" "Rundeck job error") (trace s')
    /\ In (EvSend (CardFeedback "INC0010001" "zoom" "5.0" "failed")) (trace s')
    /\ bot s' = new_bot.
Proof.
  eexists. split; [vm_compute; reflexivity |].
  cbn. repeat split; tauto.
Qed.

(** C7: when the status query reports "succeeded", the handler asks
    ServiceNow to set the ticket to closed (the PATCH with code "7" goes to
    the incident that the lookup finds), sends and logs the success and
    then sends the feedback card with status "success"; when it reports
    "failed" or "aborted", the ticket is set to cancelled (code "8"), the
    failure is sent and logged, and the feedback card follows with status
    "failed".  [concluded] lists the three cases. *)
Theorem final_status_updates_ticket_then_feedback
    (env : Env) (fuel : nat) (card : gmap string string) (s : St)
    (id : Z) (k : nat) (final target code : string) (note : message)
    (logged status : string) :
  let inc := card_get card "incident_number" in
  let sw := card_get card "software_name" in
  let ver := card_get card "version" in
  concluded sw ver final target code note logged status ->
  rd_run env (n_rd_run (calls s)) sw (job_version ver) = HttpResp 200 (Some id) ->
  id <> 0%Z ->
  (forall i, (i < k)%nat -> still_running (rd_exec env (n_rd_exec (calls s) + i) id)) ->
  rd_exec env (n_rd_exec (calls s) + k) id = HttpResp 200 (Some final) ->
  (k < fuel)%nat ->
  exists pre mid s',
    _handle_admin_approval env fuel card s = (Val tt, s')
    /\ bot s' = new_bot
    /\ trace s' =
         trace s ++ pre
           ++ [EvRdExec id; EvPrint (PrJobStatus final);
               EvPrint (PrUpdating inc target); EvSnGet inc]
           ++ mid
           ++ [EvSend note; EvLog inc sw ver logged;
               EvSend MsgFeedbackPrompt;
               EvSend (CardFeedback inc sw ver status)]
    /\ only [KPrint; KSnPatch] mid
    /\ (forall sid more,
          sn_get env (S (n_sn_get (calls s))) inc = LookupOk (Some sid :: more) ->
          exists tl, mid = EvSnPatch sid code :: tl /\ only [KPrint] tl).
Proof.
  intros inc sw ver Hconcl Htrig Hid Hrun Hresp Hlt.
  destruct (wp_elim _ _ _
              (approval_concluded env fuel card s id k final target code note logged
                 status Hconcl Htrig Hid Hrun Hresp Hlt))
    as (r & s' & Heq & -> & Hbot & mid & msg & evs & mid2 & _ & _ & Hmid2 & Hpatch & Htr).
  fold inc sw ver in Htr, Hpatch.
  exists (EvPrint (PrUpdating inc "in progress") :: EvSnGet inc :: mid
            ++ [EvSend msg; EvSend (MsgApproved inc sw ver);
                EvLog inc sw ver "Admin approved the software installation request";
                EvRdRun sw (job_version ver); EvSend (MsgJobStarted id)] ++ evs),
    mid2, s'.
  split; [exact Heq |]. split; [exact Hbot |].
  split; [rewrite Htr; norm_trace; reflexivity |].
  split; [exact Hmid2 | exact Hpatch].
Qed.

Lemma final_status_updates_ticket_then_feedback_witness :
  exists pre mid s',
    _handle_admin_approval (Sample.env_final "aborted") 5 Sample.approve_card init
      = (Val tt, s')
    /\ bot s' = new_bot
    /\ trace s' =
         trace init ++ pre
           ++ [EvRdExec 42; EvPrint (PrJobStatus "aborted");
               EvPrint (PrUpdating (card_get Sample.approve_card "incident_number")
                          "cancelled");
               EvSnGet (card_get Sample.approve_card "incident_number")]
           ++ mid
           ++ [EvSend (MsgInstallFailed (card_get Sample.approve_card "software_name")
                         (card_get Sample.approve_card "version"));
               EvLog (card_get Sample.approve_card "incident_number")
                 (card_get Sample.approve_card "software_name")
                 (card_get Sample.approve_card "version") "Rundeck job aborted";
               EvSend MsgFeedbackPrompt;
               EvSend (CardFeedback (card_get Sample.approve_card "incident_number")
                         (card_get Sample.approve_card "software_name")
                         (card_get Sample.approve_card "version") "failed")]
    /\ only [KPrint; KSnPatch] mid
    /\ (forall sid more,
          sn_get (Sample.env_final "aborted") (S (n_sn_get (calls init)))
            (card_get Sample.approve_card "incident_number")
            = LookupOk (Some sid :: more) ->
          exists tl, mid = EvSnPatch sid "8" :: tl /\ only [KPrint] tl).
Proof.
  apply (final_status_updates_ticket_then_feedback (Sample.env_final "aborted") 5
           Sample.approve_card init 42 2 "aborted" "cancelled" "8").
  - apply concluded_aborted.
  - reflexivity.
  - discriminate.
  - intros i Hi. exists "running".
    destruct i as [ | [ | i]]; [split; reflexivity | split; reflexivity | lia].
  - reflexivity.
  - lia.
Defined.

(** The run of scenario A of the specification: approval, two polls that
    say "running", a third that says "succeeded". *)
Example approval_succeeded_run :
  _handle_card_submission Sample.env_ok Sample.no_show 5 Sample.approve_card init
  = (Val tt,
     mkSt new_bot (Build_Calls 2 2 0 1 3 2 0 0)
       [EvPrint (PrUpdating "INC0010001" "in progress"); EvSnGet "INC0010001";
        EvSnPatch "51d0a7" "2"; EvSend (MsgSnInProgress "INC0010001");
        EvSend (MsgApproved "INC0010001" "zoom" "5.0");
        EvLog "INC0010001" "zoom" "5.0" "Admin approved the software installation request";
        EvRdRun "zoom" (Some "5.0"); EvSend (MsgJobStarted 42);
        EvRdExec 42; EvPrint (PrJobStatus "running"); EvSleep 5;
        EvRdExec 42; EvPrint (PrJobStatus "running"); EvSleep 5;
        EvRdExec 42; EvPrint (PrJobStatus "succeeded");
        EvPrint (PrUpdating "INC0010001" "closed"); EvSnGet "INC0010001";
        EvSnPatch "51d0a7" "7"; EvSend (MsgInstallSucceeded "zoom" "5.0");
        EvLog "INC0010001" "zoom" "5.0" "Rundeck job succeeded, software installed";
        EvSend MsgFeedbackPrompt;
        EvSend (CardFeedback "INC0010001" "zoom" "5.0" "success")]).
Proof. vm_compute. reflexivity. Qed.

(** ** The handlers never read the bot's fields *)

Section Blind.

Context {A B : Type}.

Lemma blind_ret (a : A) : blind (mret a).
Proof. intros s1 s2 H. now split. Qed.

Lemma blind_raise e : blind (raise e : M A).
Proof. intros s1 s2 H. now split. Qed.

Lemma blind_spin : blind (spin : M A).
Proof. intros s1 s2 H. now split. Qed.

Lemma blind_call (answer : Calls -> A) count e : blind (call answer count e).
Proof.
  intros s1 s2 [Hc Ht]. unfold call, agree. cbn. rewrite Hc, Ht. auto.
Qed.

Lemma blind_bind (m : M A) (k : A -> M B) :
  blind m -> (forall a, blind (k a)) -> blind (m ≫= k).
Proof.
  intros Hm Hk s1 s2 H. specialize (Hm s1 s2 H).
  unfold mbind, M_bind, bind.
  destruct (m s1) as [r1 t1], (m s2) as [r2 t2]. cbn in Hm.
  destruct Hm as [<- Hag]. destruct r1 as [a | e | ]; cbn; auto.
  now apply Hk.
Qed.

Lemma blind_try_except (m : M A) (h : string -> M A) :
  blind m -> (forall e, blind (h e)) -> blind (try_except m h).
Proof.
  intros Hm Hh s1 s2 H. specialize (Hm s1 s2 H).
  unfold try_except.
  destruct (m s1) as [r1 t1], (m s2) as [r2 t2]. cbn in Hm.
  destruct Hm as [<- Hag]. destruct r1 as [a | e | ]; cbn; auto.
  now apply Hh.
Qed.

End Blind.

Lemma blind_emit e : blind (emit e).
Proof. intros s1 s2 [Hc Ht]. unfold emit, agree. cbn. rewrite Hc, Ht. auto. Qed.

Lemma blind_set_bot b : blind (set_bot b).
Proof. intros s1 s2 [Hc Ht]. unfold set_bot, agree. cbn. auto. Qed.

Ltac blind_step :=
  first
    [ apply blind_bind; [ | intros ? ]
    | apply blind_try_except; [ | intros ? ]
    | apply blind_ret
    | apply blind_raise
    | apply blind_spin
    | apply blind_call
    | apply blind_emit
    | apply blind_set_bot
    | match goal with
      | |- blind (match ?x with _ => _ end) => destruct x
      end ].

Section BlindHandlers.

Variable env : Env.

Lemma blind_update inc ns : blind (update_incident_state_sn env inc ns).
Proof.
  unfold update_incident_state_sn, print. repeat blind_step.
Qed.

Lemma blind_run_rundeck_job app version : blind (run_rundeck_job env app version).
Proof.
  unfold run_rundeck_job, print. cbv zeta. repeat blind_step.
Qed.

Lemma blind_check_job_status fuel id : blind (check_job_status env fuel id).
Proof.
  induction fuel as [ | fuel IH]; cbn [check_job_status]; unfold print.
  - apply blind_spin.
  - repeat first [ exact IH | blind_step ].
Qed.

Lemma blind_approval fuel card : blind (_handle_admin_approval env fuel card).
Proof.
  unfold _handle_admin_approval, _send_feedback_card, _reset_admin_mode,
    log_software_request, send_activity. cbv zeta.
  repeat first
    [ apply blind_update | apply blind_run_rundeck_job
    | apply blind_check_job_status | blind_step ].
Qed.

End BlindHandlers.

(** ** Approval is not guarded by any state *)

(** C3, as the code has it: the approval handler makes no check of the
    state the request is in.  Whatever the bot's fields are (admin mode on
    or off, an approval pending or not), it looks the ticket up, triggers
    the job, and raises nothing but what a call to the job executor raises;
    and what it does is the same for any other value of those fields. *)
Theorem approval_makes_no_state_check
    (env : Env) (fuel : nat) (card : gmap string string)
    (b : Bot) (c : Calls) (t : list event) :
  let inc := card_get card "incident_number" in
  let sw := card_get card "software_name" in
  let ver := card_get card "version" in
  exists r s' evs,
    _handle_admin_approval env fuel card (mkSt b c t) = (r, s')
    /\ trace s' = t ++ evs
    /\ In (EvSnGet inc) evs
    /\ (forall sid more,
          sn_get env (n_sn_get c) inc = LookupOk (Some sid :: more) ->
          In (EvSnPatch sid "2") evs)
    /\ In (EvRdRun sw (job_version ver)) evs
    /\ n_rd_run (calls s') = S (n_rd_run c)
    /\ (forall e, r = Raised e -> In e ["requests.post"; "id"; "requests.get"; "status"])
    /\ (forall b', exists s'',
           _handle_admin_approval env fuel card (mkSt b' c t) = (r, s'')
           /\ trace s'' = trace s' /\ calls s'' = calls s').
Proof.
  intros inc sw ver.
  destruct (wp_elim _ _ _ (approval_any env fuel card (mkSt b c t)))
    as (r & s' & Heq & mid & msg & post & Htr & _ & _ & Hn & _ & Hexn & Hpatch).
    fold inc sw ver in Htr, Hpatch. cbn [trace calls] in Htr, Hn, Hpatch.
    exists r, s'. eexists. split; [exact Heq |]. split; [exact Htr |].
    split; [in_list |].
    split; [intros sid more Hlk; destruct (Hpatch sid more Hlk) as (tl & -> & _); in_list |].
    split; [in_list |]. split; [exact Hn |].
  split; [exact Hexn |].
  intros b'.
  destruct (blind_approval env fuel card (mkSt b' c t) (mkSt b c t)) as [Hr [Hc Ht]];
    [split; reflexivity |].
  rewrite Heq in Hr, Hc, Ht. cbn [fst snd] in Hr, Hc, Ht.
  destruct (_handle_admin_approval env fuel card (mkSt b' c t)) as [r'' s''].
  cbn [fst snd] in Hr, Hc, Ht. subst r''. exists s''. auto.
Qed.

(** C3 as the specification states it fails: on a freshly created bot, for
    which no request awaits approval, an approval raises no error, updates
    the ticket and triggers the job. *)
Lemma approval_without_pending_request :
  is_admin_mode (bot init) = false
  /\ pending_approval (bot init) = ∅
  /\ exists s',
      _handle_card_submission Sample.env_ok Sample.no_show 5 Sample.approve_card init
        = (Val tt, s')
      /\ In (EvSnPatch "51d0a7" "2") (trace s')
      /\ In (EvRdRun "zoom" (Some "5.0")) (trace s').
Proof.
  split; [reflexivity |]. split; [reflexivity |].
  eexists. split; [vm_compute; reflexivity |].
  cbn. split; tauto.
Qed.

(** ** One trigger for each approval *)

Lemma triggers_app a b : triggers (a ++ b) = triggers a ++ triggers b.
Proof. apply List.filter_app. Qed.

Lemma triggers_without evs : without KRdRun evs -> triggers evs = [].
Proof.
  unfold without, triggers. induction 1 as [ | e evs He _ IH]; [reflexivity |].
  cbn. destruct e; try exact IH. now contradiction He.
Qed.

(** C5, as the code has it: in each run of the approval handler the job is
    triggered exactly once, after the approval notice, and status queries
    are made only after a trigger that returned an execution id.  Nothing
    ties this to the lifetime of the request: approving again triggers the
    job again. *)
Theorem each_approval_triggers_the_job_once
    (env : Env) (fuel : nat) (card : gmap string string) (s : St) :
  let inc := card_get card "incident_number" in
  let sw := card_get card "software_name" in
  let ver := card_get card "version" in
  exists r s' pre post,
    _handle_admin_approval env fuel card s = (r, s')
    /\ trace s' = trace s ++ pre ++ EvRdRun sw (job_version ver) :: post
    /\ In (EvSend (MsgApproved inc sw ver)) pre
    /\ without KRdRun pre /\ without KRdExec pre
    /\ without KRdRun post
    /\ (without KRdExec post \/
        exists id, rd_run env (n_rd_run (calls s)) sw (job_version ver)
                   = HttpResp 200 (Some id) /\ id <> 0%Z)
    /\ length (triggers (trace s')) = S (length (triggers (trace s)))
    /\ exists r2 s2,
        _handle_admin_approval env fuel card s' = (r2, s2)
        /\ length (triggers (trace s2)) = S (S (length (triggers (trace s)))).
Proof.
  intros inc sw ver.
  assert (Hone : forall s0, exists r s' pre post,
             _handle_admin_approval env fuel card s0 = (r, s')
             /\ trace s' = trace s0 ++ pre ++ EvRdRun sw (job_version ver) :: post
             /\ In (EvSend (MsgApproved inc sw ver)) pre
             /\ without KRdRun pre /\ without KRdExec pre
             /\ without KRdRun post
             /\ (without KRdExec post \/
                 exists id, rd_run env (n_rd_run (calls s0)) sw (job_version ver)
                            = HttpResp 200 (Some id) /\ id <> 0%Z)
             /\ length (triggers (trace s')) = S (length (triggers (trace s0)))).
  { intros s0.
    destruct (wp_elim _ _ _ (approval_any env fuel card s0))
      as (r & s' & Heq & mid & msg & post & Htr & Hmid & Hpost & _ & Hpoll & _).
    fold inc sw ver in Htr, Hpoll.
    exists r, s',
      (EvPrint (PrUpdating inc "in progress") :: EvSnGet inc :: mid
         ++ [EvSend msg; EvSend (MsgApproved inc sw ver);
             EvLog inc sw ver "Admin approved the software installation request"]),
      post.
    split; [exact Heq |].
    split; [rewrite Htr; norm_trace; reflexivity |].
    split; [in_list |].
    assert (Hpre : without KRdRun
                     (EvPrint (PrUpdating inc "in progress") :: EvSnGet inc :: mid
                        ++ [EvSend msg; EvSend (MsgApproved inc sw ver);
                            EvLog inc sw ver
                              "Admin approved the software installation request"]))
      by kinds_all.
    split; [exact Hpre |]. split; [kinds_all |].
    split; [exact Hpost |]. split; [exact Hpoll |].
    rewrite Htr.
    change (EvPrint (PrUpdating inc "in progress") :: EvSnGet inc :: mid
              ++ [EvSend msg; EvSend (MsgApproved inc sw ver);
                  EvLog inc sw ver "Admin approved the software installation request";
                  EvRdRun sw (job_version ver)] ++ post)
      with ([EvPrint (PrUpdating inc "in progress"); EvSnGet inc]
              ++ mid
              ++ [EvSend msg; EvSend (MsgApproved inc sw ver);
                  EvLog inc sw ver "Admin approved the software installation request";
                  EvRdRun sw (job_version ver)] ++ post).
    rewrite !triggers_app.
    rewrite (triggers_without mid) by kinds_all.
    rewrite (triggers_without post) by exact Hpost.
    cbn. rewrite List.length_app. cbn. lia. }
  destruct (Hone s) as (r & s' & pre & post & Heq & Htr & Happ & Hpre & Hpre' & Hpost
                        & Hpoll & Hlen).
  destruct (Hone s') as (r2 & s2 & _ & _ & Heq2 & _ & _ & _ & _ & _ & _ & Hlen2).
  exists r, s', pre, post. repeat (split; [assumption |]).
  exists r2, s2. split; [exact Heq2 |]. now rewrite Hlen2, Hlen.
Qed.

(** C5 as the specification states it fails: approving the same request a
    second time triggers a second job. *)
Lemma second_approval_triggers_again :
  exists s1 s2,
    _handle_card_submission Sample.env_ok Sample.no_show 5 Sample.approve_card init
      = (Val tt, s1)
    /\ _handle_card_submission Sample.env_ok Sample.no_show 5 Sample.approve_card s1
       = (Val tt, s2)
    /\ triggers (trace s2) = [EvRdRun "zoom" (Some "5.0"); EvRdRun "zoom" (Some "5.0")]
    /\ n_rd_run (calls s2) = 2%nat.
Proof.
  eexists _, _. split; [vm_compute; reflexivity |].
  split; [vm_compute; reflexivity |].
  split; reflexivity.
Qed.

(** ** Rejection is not final *)




(** ** The request log and the approval stage *)

Ltac wp_case :=
  lazymatch goal with
  | |- wp (match ?x with _ => _ end) _ _ => destruct x eqn:?
  end.

Ltac wp_all := repeat (wp_run; try wp_case).

Ltac log_cases H :=
  cbn [In] in H;
  repeat match type of H with
         | _ \/ _ => destruct H as [H | H]
         end;
  try discriminate H; try contradiction H.

(** C4, as the code has it.  In the install branch the write to the
    request log gates the approval stage: when the write reports failure
    the failure is printed and that is the end of the run (the incident
    that was created is left as it is, the bot's fields are unchanged and
    no approval card is sent); an approval card is sent only after a write
    that succeeded.  In the approval and rejection handlers the answer of
    the log is not looked at: they run the same whatever it answers. *)
Theorem log_write_gates_only_the_approval_stage
    (env : Env) (show : gmap string string -> M unit) (fuel : nat)
    (card : gmap string string) (s : St) :
  (card !! "action" = Some "install" ->
   exists r s',
     _handle_card_submission env show fuel card s = (r, s')
     /\ exists evs,
     trace s' = trace s ++ evs
     /\ (forall a b c d,
           In (EvLog a b c d) evs ->
           db_log env (n_db_log (calls s)) a b c d = false ->
           r = Val tt /\ bot s' = bot s
           /\ (exists pre, evs = pre ++ [EvLog a b c d; EvPrint (PrLogFailed a)])
           /\ forall data, ~ In (EvSend (CardAdminApproval data)) evs)
     /\ (forall data,
           In (EvSend (CardAdminApproval data)) evs ->
           bot s' = {| is_admin_mode := true; pending_approval := data |}
           /\ exists a b c d,
               In (EvLog a b c d) evs
               /\ db_log env (n_db_log (calls s)) a b c d = true))
  /\ (forall f,
        _handle_admin_approval (with_db_log env f) fuel card s
        = _handle_admin_approval env fuel card s)
  /\ (forall f,
        _handle_admin_rejection (with_db_log env f) card s
        = _handle_admin_rejection env card s).
Proof.
  split; [| split; intros f; reflexivity].
  intros Hact. apply wp_elim.
  unfold _handle_card_submission. apply wp_try_except. wp_simpl.
  rewrite (card_get_Some _ _ _ Hact). cbn [String.eqb Ascii.eqb Bool.eqb].
  unfold install_branch, extract_incident_data, create_incident_direct,
    _switch_to_admin_mode.
  wp_all.
  all: norm_trace; eexists; (split; [reflexivity |]); split.
  all: try (intros a b c d Hin Hlog; log_cases Hin).
  all: try (intros data Hin; log_cases Hin).
  all: try (injection Hin as <- <- <- <-).
  all: try (injection Hin as <-).
  all: try congruence.
  all: try (split; [reflexivity |]; split; [reflexivity |]; split;
            [ match goal with
              | |- exists pre, ?l = _ => exists (firstn (length l - 2) l); reflexivity
              end
            | intros data Hin'; log_cases Hin' ]).
  all: try (split; [reflexivity |]; eexists _, _, _, _; split; [| eassumption]; in_list).
Qed.

Lemma log_write_gates_only_the_approval_stage_witness :
  exists r s',
    _handle_card_submission Sample.env_log_fails Sample.no_show 0 Sample.install_card init
      = (r, s')
    /\ exists evs,
    trace s' = trace init ++ evs
    /\ (forall a b c d,
          In (EvLog a b c d) evs ->
          db_log Sample.env_log_fails (n_db_log (calls init)) a b c d = false ->
          r = Val tt /\ bot s' = bot init
          /\ (exists pre, evs = pre ++ [EvLog a b c d; EvPrint (PrLogFailed a)])
          /\ forall data, ~ In (EvSend (CardAdminApproval data)) evs)
    /\ (forall data,
          In (EvSend (CardAdminApproval data)) evs ->
          bot s' = {| is_admin_mode := true; pending_approval := data |}
          /\ exists a b c d,
              In (EvLog a b c d) evs
              /\ db_log Sample.env_log_fails (n_db_log (calls init)) a b c d = true).
Proof.
  apply (proj1 (log_write_gates_only_the_approval_stage Sample.env_log_fails
                  Sample.no_show 0 Sample.install_card init)).
  vm_compute. reflexivity.
Defined.

(** C4 as the specification states it fails: the same install submission,
    once with a request log that accepts the write and once with one that
    refuses it.  After the refused write the failure is printed, the bot
    does not switch to admin mode and no approval card is sent. *)
Lemma failed_log_write_blocks_the_approval_stage :
  exists s_ok s_fail,
    _handle_card_submission Sample.env_ok Sample.no_show 0 Sample.install_card init
      = (Val tt, s_ok)
    /\ _handle_card_submission Sample.env_log_fails Sample.no_show 0 Sample.install_card init
       = (Val tt, s_fail)
    /\ is_admin_mode (bot s_ok) = true
    /\ (exists data, In (EvSend (CardAdminApproval data)) (trace s_ok))
    /\ is_admin_mode (bot s_fail) = false
    /\ (forall data, ~ In (EvSend (CardAdminApproval data)) (trace s_fail))
    /\ In (EvPrint (PrLogFailed "INC0010001")) (trace s_fail).
Proof.
  eexists _, _. split; [vm_compute; reflexivity |].
  split; [vm_compute; reflexivity |].
  split; [reflexivity |].
  split; [eexists; cbn; do 14 right; left; reflexivity |].
  split; [reflexivity |].
  split; [| cbn; tauto].
  intros data Hin. cbn [trace] in Hin. log_cases Hin.
Qed.

(** ** Two more runs *)

(** Scenario C of the specification: a rejection with a reason. *)
Example rejection_run :
  _handle_card_submission Sample.env_ok Sample.no_show 0 Sample.reject_card
    (mkSt {| is_admin_mode := true; pending_approval := Sample.approve_card |}
       no_calls [])
  = (Val tt,
     mkSt new_bot (Build_Calls 1 1 0 0 0 1 0 0)
       [EvPrint (PrUpdating "INC0010001" "cancelled"); EvSnGet "INC0010001";
        EvSnPatch "51d0a7" "8"; EvSend (MsgSnCancelled "INC0010001");
        EvSend (MsgRejected "INC0010001" "zoom" "5.0" "not approved for this env");
        EvLog "INC0010001" "zoom" "5.0"
          "Admin rejected the request of Software Installation"]).
Proof. vm_compute. reflexivity. Qed.

(** An update for an incident number that ServiceNow does not know. *)
Example update_unknown_incident :
  update_incident_state_sn Sample.env_no_incident "INC0099999" "Closed" init
  = (Val (UpdError (ErrNotFound "INC0099999")),
     mkSt new_bot (Build_Calls 1 0 0 0 0 0 0 0)
       [EvPrint (PrUpdating "INC0099999" "Closed"); EvSnGet "INC0099999"]).
Proof. vm_compute. reflexivity. Qed.

(** * Further properties of the code *)

(** ** What the polling loop returns *)

Lemma check_job_status_S env fuel id :
  check_job_status env (S fuel) id
  = (response ← call (fun c => rd_exec env (n_rd_exec c) id)
                   Count.rd_exec (EvRdExec id);
     match response with
     | HttpRaised => raise "requests.get"
     | HttpResp status_code data =>
         if (status_code =? 200)%Z then
           match data with
           | None => raise "status"
           | Some status =>
               print (PrJobStatus status);;
               if is_finished status then mret status
               else emit (EvSleep 5);; check_job_status env fuel id
           end
         else mret "error"
     end).
Proof. reflexivity. Qed.

Lemma is_finished_cases status :
  is_finished status = true ->
  status = "succeeded" \/ status = "failed" \/ status = "aborted".
Proof.
  unfold is_finished. cbn [existsb]. rewrite !orb_true_iff, !String.eqb_eq.
  intuition discriminate.
Qed.

Lemma polls_app a b : polls (a ++ b) = (polls a + polls b)%nat.
Proof. unfold polls. now rewrite List.filter_app, List.length_app. Qed.

Lemma sleeps_app a b : sleeps (a ++ b) = (sleeps a + sleeps b)%nat.
Proof. unfold sleeps. now rewrite List.filter_app, List.length_app. Qed.

(** Everything that holds of a run of the loop that returns a value. *)
Lemma check_job_status_returned env fuel :
  forall id s st s',
    check_job_status env fuel id s = (Val st, s') ->
    In st ["succeeded"; "failed"; "aborted"; "error"]
    /\ exists evs,
        trace s' = trace s ++ evs
        /\ bot s' = bot s
        /\ polls evs = S (sleeps evs)
        /\ Forall (fun e => forall z, e = EvSleep z -> z = 5%Z) evs
        /\ only [KRdExec; KPrint; KSleep] evs
        /\ calls s' = polled (polls evs) (calls s)
        /\ exists pre e, evs = pre ++ [e] /\ kind_of e <> KSleep.
Proof.
  induction fuel as [ | fuel IH]; intros id s st s'.
  - discriminate.
  - rewrite check_job_status_S. run_step.
    destruct (rd_exec env (n_rd_exec (calls s)) id) as [ | code [status | ]]; cbn;
      try discriminate.
    + destruct (code =? 200)%Z; cbn.
      * destruct (is_finished status) eqn:Hfin; cbn.
        -- intros [= <- <-]. split.
           { destruct (is_finished_cases _ Hfin) as [-> | [-> | ->]]; cbn; tauto. }
           exists [EvRdExec id; EvPrint (PrJobStatus status)]. cbn.
           rewrite <- List.app_assoc. repeat split; try reflexivity.
           ++ repeat constructor; discriminate.
           ++ kinds.
           ++ exists [EvRdExec id], (EvPrint (PrJobStatus status)).
              split; [reflexivity | discriminate].
        -- intros Hrun. apply IH in Hrun.
           destruct Hrun as (Hst & evs & Htr & Hbot & Hcount & Hfive & Honly & Hcalls
                             & pre & e & Hlast & He).
           split; [exact Hst |].
           exists ([EvRdExec id; EvPrint (PrJobStatus status); EvSleep 5] ++ evs).
           cbn [trace bot calls] in Htr, Hbot, Hcalls.
           split; [rewrite Htr; now rewrite <- !List.app_assoc |].
           split; [exact Hbot |].
           rewrite polls_app, sleeps_app. cbn.
           split; [unfold polls, sleeps in *; cbn; lia |].
           split.
           { repeat (apply Forall_cons_2;
                     [intros z Hz; first [discriminate Hz | now injection Hz as <-] |]).
             exact Hfive. }
           split; [kinds_all |].
           split; [rewrite Hcalls; rewrite polled_S; f_equal |].
           exists (EvRdExec id :: EvPrint (PrJobStatus status) :: EvSleep 5 :: pre), e.
           split; [now rewrite Hlast | exact He].
      * intros [= <- <-]. split; [cbn; tauto |].
        exists [EvRdExec id]. cbn. repeat split; try reflexivity.
        -- repeat constructor; discriminate.
        -- kinds.
        -- exists [], (EvRdExec id). split; [reflexivity | discriminate].
    + destruct (code =? 200)%Z; cbn; [discriminate |].
      intros [= <- <-]. split; [cbn; tauto |].
      exists [EvRdExec id]. cbn. repeat split; try reflexivity.
      -- repeat constructor; discriminate.
      -- kinds.
      -- exists [], (EvRdExec id). split; [reflexivity | discriminate].
Qed.

(** X1: whenever [check_job_status] returns, what it returns is one of
    "succeeded", "failed", "aborted" and "error"; no other status of the
    executor ("running", "scheduled", ...) ever reaches the caller. *)
Theorem check_job_status_returns_known_status
    (env : Env) (fuel : nat) (id : Z) (s : St) (st : string) (s' : St) :
  check_job_status env fuel id s = (Val st, s') ->
  In st ["succeeded"; "failed"; "aborted"; "error"].
Proof.
  intros Hrun. exact (proj1 (check_job_status_returned env fuel id s st s' Hrun)).
Qed.

Lemma check_job_status_returns_known_status_witness :
  In "aborted" ["succeeded"; "failed"; "aborted"; "error"].
Proof.
  eapply (check_job_status_returns_known_status (Sample.env_final "aborted") 4 42 init).
  vm_compute. reflexivity.
Defined.



(** ** The ticket update, in full *)

(** X3: [update_incident_state_sn] never raises: every failure comes back
    as an error dict.  It looks the incident up exactly once, sends at most
    one PATCH, reports success only after a PATCH, and touches neither the
    bot's fields nor any other service. *)
Theorem update_incident_state_sn_is_contained
    (env : Env) (inc ns : string) (s : St) :
  exists r s' evs,
    update_incident_state_sn env inc ns s = (Val r, s')
    /\ trace s' = trace s ++ evs
    /\ bot s' = bot s
    /\ only [KPrint; KSnGet; KSnPatch] evs
    /\ n_sn_get (calls s') = S (n_sn_get (calls s))
    /\ (length (patches evs) <= 1)%nat
    /\ n_sn_patch (calls s') = (length (patches evs) + n_sn_patch (calls s))%nat
    /\ (upd_success r = true -> length (patches evs) = 1%nat)
    /\ n_sn_post (calls s') = n_sn_post (calls s)
    /\ n_rd_run (calls s') = n_rd_run (calls s)
    /\ n_rd_exec (calls s') = n_rd_exec (calls s)
    /\ n_db_log (calls s') = n_db_log (calls s).
Proof.
  unfold update_incident_state_sn. run_step.
  destruct (sn_get env (n_sn_get (calls s)) inc) as [e | [ | [sid | ] more]]; cbn.
  4: norm_trace; eexists _, _, _; split; [reflexivity |]; split; [reflexivity |];
     cbn; repeat split; try lia; try discriminate; kinds.
  1, 2: norm_trace; eexists _, _, _; (split; [reflexivity |]); (split; [reflexivity |]);
     cbn; repeat split; try lia; try discriminate; kinds.
  destruct (state_map !! PyStr.lower ns) as [code | ] eqn:Hmap; cbn.
  - rewrite (state_map_truthy _ _ Hmap). cbn.
    destruct (sn_patch env (n_sn_patch (calls s)) sid code) as [e | data]; cbn;
      norm_trace; eexists _, _, _; (split; [reflexivity |]); (split; [reflexivity |]);
      cbn; repeat split; try lia; try discriminate; kinds.
  - norm_trace; eexists _, _, _; (split; [reflexivity |]); (split; [reflexivity |]);
      cbn; repeat split; try lia; try discriminate; kinds.
Qed.

(** X4: when the lookup finds the incident and the target state, put in
    lower case, is one of the four names of [state_map], exactly one PATCH
    is sent: to the [sys_id] of the first record found, with the code of
    that name.  The result is a success, carrying the answer, exactly when
    the PATCH was answered; otherwise it is the error of the PATCH. *)
Theorem update_incident_state_sn_patches_first_record
    (env : Env) (inc ns sid code : string) (more : list (option string)) (s : St) :
  sn_get env (n_sn_get (calls s)) inc = LookupOk (Some sid :: more) ->
  state_map !! PyStr.lower ns = Some code ->
  exists r s' tl,
    update_incident_state_sn env inc ns s = (Val r, s')
    /\ trace s' =
         trace s ++ [EvPrint (PrUpdating inc ns); EvSnGet inc; EvSnPatch sid code] ++ tl
    /\ only [KPrint] tl
    /\ In code ["1"; "2"; "7"; "8"]
    /\ r = match sn_patch env (n_sn_patch (calls s)) sid code with
           | PatchOk data => UpdSuccess data
           | PatchRaised e => UpdError (ErrException e)
           end.
Proof.
  intros Hlk Hmap.
  unfold update_incident_state_sn. run_step. rewrite Hlk. cbn. rewrite Hmap. cbn.
  rewrite (state_map_truthy _ _ Hmap). cbn.
  assert (Hcode : In code ["1"; "2"; "7"; "8"]).
  { rewrite state_map_lookup in Hmap.
    repeat case_decide; inversion Hmap; subst; cbn; tauto. }
  destruct (sn_patch env (n_sn_patch (calls s)) sid code) as [e | data]; cbn;
    norm_trace; eexists _, _, _; (split; [reflexivity |]);
    (split; [norm_trace; reflexivity |]); (split; [kinds |]); split; auto.
Qed.

Lemma update_incident_state_sn_patches_first_record_witness :
  exists r s' tl,
    update_incident_state_sn Sample.env_ok "INC0010001" "In PROGRESS" init = (Val r, s')
    /\ trace s' =
         trace init ++ [EvPrint (PrUpdating "INC0010001" "In PROGRESS");
                        EvSnGet "INC0010001"; EvSnPatch "51d0a7" "2"] ++ tl
    /\ only [KPrint] tl
    /\ In "2" ["1"; "2"; "7"; "8"]
    /\ r = match sn_patch Sample.env_ok (n_sn_patch (calls init)) "51d0a7" "2" with
           | PatchOk data => UpdSuccess data
           | PatchRaised e => UpdError (ErrException e)
           end.
Proof.
  apply (update_incident_state_sn_patches_first_record Sample.env_ok "INC0010001"
           "In PROGRESS" "51d0a7" "2" [] init).
  - reflexivity.
  - vm_compute. reflexivity.
Defined.

(** ** Creating the incident *)

(** X5: [create_incident_direct] never raises.  Given a dict, it sends
    exactly one POST, and the incident it posts always names a caller: the
    one given if there is one, "Guest" when the entry is missing or empty;
    every other entry is posted as given.  It then returns the body of the
    answer, and [None] when the request failed or the answer was not JSON.
    Given a value that is not a dict, as [json.loads] can return, it sends
    no POST at all and returns [None]. *)
Theorem create_incident_direct_always_names_a_caller
    (env : Env) (incident_data : loaded) (s : St) :
  exists r s' evs,
    create_incident_direct env incident_data s = (Val r, s')
    /\ trace s' = trace s ++ EvPrint PrCreating :: evs
    /\ bot s' = bot s
    /\ match incident_data with
       | NotDict =>
           r = None
           /\ only [KPrint] evs
           /\ n_sn_post (calls s') = n_sn_post (calls s)
       | Dict data =>
           exists posted tl,
             evs = EvSnPost posted :: tl
             /\ only [KPrint] tl
             /\ n_sn_post (calls s') = S (n_sn_post (calls s))
             /\ PyStr.truthy (card_get posted "caller") = true
             /\ (PyStr.truthy (card_get data "caller") = true -> posted = data)
             /\ (PyStr.truthy (card_get data "caller") = false ->
                 posted !! "caller" = Some "Guest")
             /\ (forall k, k <> "caller" -> posted !! k = data !! k)
             /\ r = match sn_post env (n_sn_post (calls s)) posted with
                    | PostOk body => Some body
                    | _ => None
                    end
       end.
Proof.
  destruct incident_data as [data | ].
  - unfold create_incident_direct. run_step.
    set (posted := if PyStr.truthy (card_get data "caller") then data
                   else <["caller" := "Guest"]> data).
    assert (Hposted :
              PyStr.truthy (card_get posted "caller") = true
              /\ (PyStr.truthy (card_get data "caller") = true -> posted = data)
              /\ (PyStr.truthy (card_get data "caller") = false ->
                  posted !! "caller" = Some "Guest")
              /\ (forall k, k <> "caller" -> posted !! k = data !! k)).
    { subst posted. destruct (PyStr.truthy (card_get data "caller")) eqn:Hc.
      - repeat split; auto; discriminate.
      - split; [unfold card_get; now rewrite lookup_insert_eq |].
        split; [discriminate |]. split; [intros _; apply lookup_insert_eq |].
        intros k Hk. now apply lookup_insert_ne. }
    destruct Hposted as (H1 & H2 & H3 & H4).
    destruct (sn_post env (n_sn_post (calls s)) posted) as [e | body | e] eqn:Hp; cbn;
      norm_trace; eexists _, _, _; (split; [reflexivity |]);
      (split; [reflexivity |]); (split; [reflexivity |]);
      eexists posted, _; (split; [reflexivity |]); (split; [kinds |]);
      repeat (split; [first [reflexivity | assumption] |]); now rewrite Hp.
  - unfold create_incident_direct. run_step. norm_trace.
    eexists _, _, _. split; [reflexivity |]. split; [reflexivity |].
    split; [reflexivity |]. split; [reflexivity |]. split; [kinds | reflexivity].
Qed.

(** ** An install submission, step by step *)

Lemma truthy_description name iv :
  PyStr.truthy ("Installation of " ++ name ++ " v" ++ iv)%string = true.
Proof. reflexivity. Qed.

(** The steps of an install submission up to the answer of the language
    model. *)
Ltac install_prefix Hact Happ Hver Hinfo Hllm :=
  unfold _handle_card_submission; apply wp_try_except; wp_simpl;
  rewrite (card_get_Some _ _ _ Hact); cbn [String.eqb Ascii.eqb Bool.eqb];
  unfold install_branch; wp_simpl; rewrite Happ, Hver; cbn [andb];
  wp_run; rewrite Hinfo; wp_simpl; rewrite truthy_description;
  unfold extract_incident_data, create_incident_direct; wp_run;
  unfold extraction_prompt in Hllm; rewrite Hllm.

Ltac last_events n :=
  match goal with
  | |- exists pre, ?l = _ => exists (firstn (length l - n) l); reflexivity
  end.



(** X7: when the incident cannot be created, an install submission ends
    with the "failed to create incident" notice: nothing is written to the
    request log, the bot's fields are unchanged and no approval card is
    sent.  This is so when the language model answers with JSON that is not
    an object, in which case no POST is sent at all, and when it answers
    with an object or with a text that is not JSON and the POST, sent once,
    fails, is answered with something that is not JSON, or is answered with
    an empty object. *)
Theorem install_submission_without_incident
    (env : Env) (show : gmap string string -> M unit) (fuel : nat)
    (card : gmap string string) (s : St) (name iv : string) :
  let app := card_get card "app" in
  let ver := card_get card "version" in
  let answer :=
    llm_chat env (n_llm (calls s))
      (extraction_prompt ("Installation of " ++ name ++ " v" ++ iv)) in
  card !! "action" = Some "install" ->
  PyStr.truthy app = true ->
  PyStr.truthy ver = true ->
  get_software_info env app ver = Some (name, iv) ->
  answer = LlmOther
  \/ ((exists parsed, answer = LlmText parsed)
      /\ forall d body, sn_post env (n_sn_post (calls s)) d = PostOk body ->
                        cb_nonempty body = false) ->
  exists s' evs,
    _handle_card_submission env show fuel card s = (Val tt, s')
    /\ trace s' = trace s ++ evs
    /\ (exists pre, evs = pre ++ [EvPrint PrCreateFailed; EvSend MsgCreateFailed])
    /\ bot s' = bot s
    /\ log_entries evs = []
    /\ n_db_log (calls s') = n_db_log (calls s)
    /\ n_sn_post (calls s')
       = match answer with
         | LlmOther => n_sn_post (calls s)
         | _ => S (n_sn_post (calls s))
         end
    /\ (answer = LlmOther -> without KSnPost evs)
    /\ forall data, ~ In (EvSend (CardAdminApproval data)) evs.
Proof.
  intros app ver answer Hact Happ Hver Hinfo Hcase. subst app ver answer.
  enough (H : wp (_handle_card_submission env show fuel card) s
                (fun r s' =>
                   r = Val tt
                   /\ exists evs,
                       trace s' = trace s ++ evs
                       /\ (exists pre,
                             evs = pre ++ [EvPrint PrCreateFailed; EvSend MsgCreateFailed])
                       /\ bot s' = bot s
                       /\ log_entries evs = []
                       /\ n_db_log (calls s') = n_db_log (calls s)
                       /\ n_sn_post (calls s')
                          = match llm_chat env (n_llm (calls s))
                                    (extraction_prompt
                                       ("Installation of " ++ name ++ " v" ++ iv)) with
                            | LlmOther => n_sn_post (calls s)
                            | _ => S (n_sn_post (calls s))
                            end
                       /\ (llm_chat env (n_llm (calls s))
                             (extraction_prompt
                                ("Installation of " ++ name ++ " v" ++ iv)) = LlmOther ->
                           without KSnPost evs)
                       /\ forall data, ~ In (EvSend (CardAdminApproval data)) evs)).
  { destruct (wp_elim _ _ _ H) as (r & s' & Heq & -> & evs & Hrest). eauto. }
  destruct Hcase as [Hllm | [[parsed Hllm] Hpost]]; rewrite Hllm.
  - install_prefix Hact Happ Hver Hinfo Hllm. wp_run.
    split; [reflexivity |]. norm_trace. eexists. split; [reflexivity |].
    split; [last_events 2 |].
    split; [reflexivity |]. split; [reflexivity |].
    split; [reflexivity |]. split; [reflexivity |].
    split; [intros _; kinds |].
    intros data Hin; log_cases Hin.
  - install_prefix Hact Happ Hver Hinfo Hllm; destruct parsed as [d | ]; wp_run.
    all: match goal with
         | |- context [sn_post ?e ?n ?d] =>
             pose proof (Hpost d) as Hp; destruct (sn_post e n d) as [err | body | err]
         end; wp_run; try rewrite (Hp body eq_refl); wp_run.
    all: split; [reflexivity |]; norm_trace; eexists; split; [reflexivity |].
    all: split; [last_events 2 |].
    all: split; [reflexivity |]. all: split; [reflexivity |].
    all: split; [reflexivity |]. all: split; [reflexivity |].
    all: split; [discriminate |].
    all: intros data Hin; log_cases Hin.
Qed.

Lemma install_submission_without_incident_witness :
  exists s',
    _handle_card_submission Cases.env_answer_not_object Sample.no_show 0
      Sample.install_card init
    = (Val tt, s')
    /\ bot s' = bot init
    /\ n_db_log (calls s') = n_db_log (calls init)
    /\ n_sn_post (calls s') = n_sn_post (calls init).
Proof.
  destruct (install_submission_without_incident Cases.env_answer_not_object
              Sample.no_show 0 Sample.install_card init "zoom" "5.0")
    as (s' & evs & Hrun & _ & _ & Hbot & _ & Hlog & Hpost & _).
  - vm_compute. reflexivity.
  - vm_compute. reflexivity.
  - vm_compute. reflexivity.
  - vm_compute. reflexivity.
  - left. reflexivity.
  - exists s'. auto.
Defined.



(** ** When Rundeck cannot be reached *)

(** A call to Rundeck that raises: the request itself failed, or the
    answer came with status 200 and without the field that is read. *)
Lemma check_job_status_raises env k fuel id s :
  (forall i, (i < k)%nat -> still_running (rd_exec env (n_rd_exec (calls s) + i) id)) ->
  rd_exec env (n_rd_exec (calls s) + k) id = HttpRaised \/
  rd_exec env (n_rd_exec (calls s) + k) id = HttpResp 200 None ->
  (k < fuel)%nat ->
  exists evs e,
    only [KRdExec; KPrint; KSleep] evs
    /\ check_job_status env fuel id s
       = (Raised e, mkSt (bot s) (polled (S k) (calls s)) (trace s ++ evs ++ [EvRdExec id])).
Proof.
  intros Hrun Hresp Hlt.
  replace fuel with (k + S (fuel - S k))%nat by lia.
  destruct (check_job_status_rounds env k (S (fuel - S k)) id s Hrun)
    as (evs & Hevs & ->).
  exists evs. rewrite check_job_status_S. run_step.
  replace (k + n_rd_exec (calls s))%nat with (n_rd_exec (calls s) + k)%nat by lia.
  destruct Hresp as [-> | ->]; cbn; eexists; (split; [exact Hevs |]);
    rewrite rd_exec_polled; rewrite <- !List.app_assoc; reflexivity.
Qed.

Ltac to_approval Hact :=
  unfold _handle_card_submission; apply wp_try_except; wp_simpl;
  rewrite (card_get_Some _ _ _ Hact); cbn [String.eqb Ascii.eqb Bool.eqb].

(** X9: when the call that triggers the job raises (Rundeck unreachable,
    or an answer with status 200 and no id), the exception is caught by the
    card handler: the admin gets the general apology and nothing else.  No
    feedback card is sent, no status query is made, the ticket stays as the
    approval left it, and the bot's fields are not reset. *)
Theorem approval_with_unreachable_trigger
    (env : Env) (show : gmap string string -> M unit) (fuel : nat)
    (card : gmap string string) (s : St) :
  let inc := card_get card "incident_number" in
  let sw := card_get card "software_name" in
  let ver := card_get card "version" in
  card !! "action" = Some "admin_approve" ->
  rd_run env (n_rd_run (calls s)) sw (job_version ver) = HttpRaised \/
  rd_run env (n_rd_run (calls s)) sw (job_version ver) = HttpResp 200 None ->
  exists s' mid msg,
    _handle_card_submission env show fuel card s = (Val tt, s')
    /\ trace s' =
         trace s ++ EvPrint (PrUpdating inc "in progress") :: EvSnGet inc :: mid
           ++ [EvSend msg; EvSend (MsgApproved inc sw ver);
               EvLog inc sw ver "Admin approved the software installation request";
               EvRdRun sw (job_version ver);
               EvPrint PrCardError; EvSend MsgSorryError]
    /\ only [KPrint; KSnPatch] mid
    /\ (msg = MsgSnInProgress inc \/ exists r, msg = MsgSnUpdateFailed r)
    /\ bot s' = bot s
    /\ n_rd_exec (calls s') = n_rd_exec (calls s)
    /\ n_sn_get (calls s') = S (n_sn_get (calls s))
    /\ n_db_log (calls s') = S (n_db_log (calls s)).
Proof.
  intros inc sw ver Hact Hans. subst inc sw ver.
  enough (H : wp (_handle_card_submission env show fuel card) s
                (fun r s' =>
                   r = Val tt
                   /\ exists mid msg,
                       trace s' =
                         trace s
                           ++ EvPrint (PrUpdating (card_get card "incident_number")
                                         "in progress")
                           :: EvSnGet (card_get card "incident_number") :: mid
                           ++ [EvSend msg;
                               EvSend (MsgApproved (card_get card "incident_number")
                                         (card_get card "software_name")
                                         (card_get card "version"));
                               EvLog (card_get card "incident_number")
                                 (card_get card "software_name")
                                 (card_get card "version")
                                 "Admin approved the software installation request";
                               EvRdRun (card_get card "software_name")
                                 (job_version (card_get card "version"));
                               EvPrint PrCardError; EvSend MsgSorryError]
                       /\ only [KPrint; KSnPatch] mid
                       /\ (msg = MsgSnInProgress (card_get card "incident_number")
                           \/ exists r, msg = MsgSnUpdateFailed r)
                       /\ bot s' = bot s
                       /\ n_rd_exec (calls s') = n_rd_exec (calls s)
                       /\ n_sn_get (calls s') = S (n_sn_get (calls s))
                       /\ n_db_log (calls s') = S (n_db_log (calls s)))).
  { destruct (wp_elim _ _ _ H) as (r & s' & Heq & -> & mid & msg & Hrest). eauto 6. }
  to_approval Hact.
  approval_prefix r1 mid1 Hmid1 Hpatch1; destruct Hans as [-> | ->];
    cbn [Z.eqb Pos.eqb]; wp_run; (split; [reflexivity |]);
    exists mid1, (if upd_success r1
                  then MsgSnInProgress (card_get card "incident_number")
                  else MsgSnUpdateFailed r1);
    (split; [norm_trace; reflexivity |]); (split; [exact Hmid1 |]);
    (split; [destruct (upd_success r1); eauto |]);
    repeat split; reflexivity.
Qed.

Lemma approval_with_unreachable_trigger_witness :
  exists s',
    _handle_card_submission Cases.env_trigger_raises Sample.no_show 3 Sample.approve_card
      (mkSt {| is_admin_mode := true; pending_approval := Sample.approve_card |}
         no_calls [])
    = (Val tt, s')
    /\ is_admin_mode (bot s') = true
    /\ n_rd_exec (calls s') = 0%nat.
Proof.
  destruct (approval_with_unreachable_trigger Cases.env_trigger_raises Sample.no_show 3
              Sample.approve_card
              (mkSt {| is_admin_mode := true; pending_approval := Sample.approve_card |}
                 no_calls []))
    as (s' & mid & msg & Hrun & _ & _ & _ & Hbot & Hexec & _).
  - vm_compute. reflexivity.
  - left. reflexivity.
  - exists s'. rewrite Hbot. auto.
Defined.

(** X10: when a status query raises after the job was started, the
    exception is caught by the card handler in the same way: the admin gets
    the general apology; the outcome of the job is neither logged nor
    mirrored to the ticket, no feedback card is sent, and the bot's fields
    are not reset. *)
Theorem approval_with_unreachable_status
    (env : Env) (show : gmap string string -> M unit) (fuel : nat)
    (card : gmap string string) (s : St) (id : Z) (k : nat) :
  let inc := card_get card "incident_number" in
  let sw := card_get card "software_name" in
  let ver := card_get card "version" in
  card !! "action" = Some "admin_approve" ->
  rd_run env (n_rd_run (calls s)) sw (job_version ver) = HttpResp 200 (Some id) ->
  id <> 0%Z ->
  (forall i, (i < k)%nat -> still_running (rd_exec env (n_rd_exec (calls s) + i) id)) ->
  rd_exec env (n_rd_exec (calls s) + k) id = HttpRaised \/
  rd_exec env (n_rd_exec (calls s) + k) id = HttpResp 200 None ->
  (k < fuel)%nat ->
  exists s' pre,
    _handle_card_submission env show fuel card s = (Val tt, s')
    /\ trace s' = trace s ++ pre ++ [EvRdExec id; EvPrint PrCardError; EvSend MsgSorryError]
    /\ only [KPrint; KSnGet; KSnPatch; KSend; KLog; KRdRun; KRdExec; KSleep] pre
    /\ ~ feedback_card_sent pre
    /\ bot s' = bot s
    /\ n_rd_exec (calls s') = (S k + n_rd_exec (calls s))%nat
    /\ n_sn_get (calls s') = S (n_sn_get (calls s))
    /\ n_db_log (calls s') = S (n_db_log (calls s)).
Proof.
  intros inc sw ver Hact Htrig Hid Hrun Hresp Hlt. subst inc sw ver.
  assert (Hz : (id =? 0)%Z = false) by now apply Z.eqb_neq.
  enough (H : wp (_handle_card_submission env show fuel card) s
                (fun r s' =>
                   r = Val tt
                   /\ exists pre,
                       trace s' = trace s ++ pre
                                    ++ [EvRdExec id; EvPrint PrCardError; EvSend MsgSorryError]
                       /\ only [KPrint; KSnGet; KSnPatch; KSend; KLog; KRdRun; KRdExec;
                                KSleep] pre
                       /\ ~ feedback_card_sent pre
                       /\ bot s' = bot s
                       /\ n_rd_exec (calls s') = (S k + n_rd_exec (calls s))%nat
                       /\ n_sn_get (calls s') = S (n_sn_get (calls s))
                       /\ n_db_log (calls s') = S (n_db_log (calls s)))).
  { destruct (wp_elim _ _ _ H) as (r & s' & Heq & -> & pre & Hrest). eauto. }
  to_approval Hact.
  approval_prefix r1 mid1 Hmid1 Hpatch1; rewrite Htrig; cbn [Z.eqb Pos.eqb id_truthy];
    rewrite Hz; wp_run.
  all: match goal with |- wp _ ?s1 _ =>
         destruct (check_job_status_raises env k fuel id s1 Hrun Hresp Hlt)
           as (evs & e & Hevs & Heq)
       end;
    unfold wp at 1; rewrite Heq; wp_run; (split; [reflexivity |]);
    exists (EvPrint (PrUpdating (card_get card "incident_number") "in progress")
              :: EvSnGet (card_get card "incident_number") :: mid1
              ++ [EvSend (if upd_success r1
                          then MsgSnInProgress (card_get card "incident_number")
                          else MsgSnUpdateFailed r1);
                  EvSend (MsgApproved (card_get card "incident_number")
                            (card_get card "software_name") (card_get card "version"));
                  EvLog (card_get card "incident_number")
                    (card_get card "software_name") (card_get card "version")
                    "Admin approved the software installation request";
                  EvRdRun (card_get card "software_name")
                    (job_version (card_get card "version"));
                  EvSend (MsgJobStarted id)] ++ evs);
    (split; [norm_trace; reflexivity |]); (split; [kinds_all |]);
    (split; [| repeat split; reflexivity]).
  all: intros (i & a & v & st & Hin); cbn [In] in Hin; rewrite !in_app_iff in Hin;
    cbn [In] in Hin;
    unfold only in Hmid1, Hevs; rewrite List.Forall_forall in Hmid1, Hevs;
    repeat match type of Hin with
           | _ \/ _ => destruct Hin as [Hin | Hin]
           end;
    try discriminate Hin; try contradiction Hin;
    try (specialize (Hmid1 _ Hin); cbn in Hmid1; intuition discriminate);
    try (specialize (Hevs _ Hin); cbn in Hevs; intuition discriminate);
    destruct (upd_success r1); discriminate.
Qed.

Lemma approval_with_unreachable_status_witness :
  exists s',
    _handle_card_submission Cases.env_poll_raises Sample.no_show 3 Sample.approve_card
      (mkSt {| is_admin_mode := true; pending_approval := Sample.approve_card |}
         no_calls [])
    = (Val tt, s')
    /\ is_admin_mode (bot s') = true
    /\ n_rd_exec (calls s') = 2%nat
    /\ n_db_log (calls s') = 1%nat.
Proof.
  destruct (approval_with_unreachable_status Cases.env_poll_raises Sample.no_show 3
              Sample.approve_card
              (mkSt {| is_admin_mode := true; pending_approval := Sample.approve_card |}
                 no_calls [])
              42 1)
    as (s' & pre & Hrun & _ & _ & _ & Hbot & Hexec & _ & Hlog).
  - vm_compute. reflexivity.
  - reflexivity.
  - discriminate.
  - intros i Hi. exists "running". destruct i; [split; reflexivity | lia].
  - left. reflexivity.
  - lia.
  - exists s'. rewrite Hbot. auto.
Defined.

(** ** What a failed trigger leaves behind *)

Lemma log_entries_app a b : log_entries (a ++ b) = log_entries a ++ log_entries b.
Proof. apply List.filter_app. Qed.

Lemma log_entries_without evs : without KLog evs -> log_entries evs = [].
Proof.
  unfold without, log_entries. induction 1 as [ | e evs He _ IH]; [reflexivity |].
  cbn. destruct e; try exact IH. now contradiction He.
Qed.

(** X11: after a failed trigger the handler returns early.  Beyond the
    failure notice and the feedback card it does nothing more: the ticket is
    left as the approval set it (no lookup or PATCH follows the trigger),
    the failure is not written to the request log, whose only entry of the
    run is the approval, and the bot's fields are not reset. *)
Theorem trigger_failure_returns_early
    (env : Env) (fuel : nat) (card : gmap string string) (s : St) :
  let inc := card_get card "incident_number" in
  let sw := card_get card "software_name" in
  let ver := card_get card "version" in
  trigger_failed (rd_run env (n_rd_run (calls s)) sw (job_version ver)) ->
  exists s' pre post,
    _handle_admin_approval env fuel card s = (Val tt, s')
    /\ trace s' = trace s ++ pre ++ EvRdRun sw (job_version ver) :: post
    /\ only [KPrint; KSend] post
    /\ log_entries (pre ++ EvRdRun sw (job_version ver) :: post)
       = [EvLog inc sw ver "Admin approved the software installation request"]
    /\ bot s' = bot s.
Proof.
  intros inc sw ver Hfail.
  destruct (wp_elim _ _ _ (approval_trigger_failed env fuel card s Hfail))
    as (r & s' & Hrun & -> & Hbot & _ & mid & msg & pr & Hmid & Hpr & Htr).
  fold inc sw ver in Htr.
  exists s',
    (EvPrint (PrUpdating inc "in progress") :: EvSnGet inc :: mid
       ++ [EvSend msg; EvSend (MsgApproved inc sw ver);
           EvLog inc sw ver "Admin approved the software installation request"]),
    (pr ++ [EvSend MsgTriggerFailed; EvSend MsgFeedbackPrompt;
            EvSend (CardFeedback inc sw ver "failed")]).
  split; [exact Hrun |].
  split; [rewrite Htr; norm_trace; reflexivity |].
  split; [kinds_all |].
  split; [| exact Hbot].
  change (EvPrint (PrUpdating inc "in progress") :: EvSnGet inc :: mid
            ++ [EvSend msg; EvSend (MsgApproved inc sw ver);
                EvLog inc sw ver "Admin approved the software installation request"])
    with ([EvPrint (PrUpdating inc "in progress"); EvSnGet inc] ++ mid
            ++ [EvSend msg; EvSend (MsgApproved inc sw ver);
                EvLog inc sw ver "Admin approved the software installation request"]).
  change (EvRdRun sw (job_version ver)
            :: pr ++ [EvSend MsgTriggerFailed; EvSend MsgFeedbackPrompt;
                      EvSend (CardFeedback inc sw ver "failed")])
    with ([EvRdRun sw (job_version ver)] ++ pr
            ++ [EvSend MsgTriggerFailed; EvSend MsgFeedbackPrompt;
                EvSend (CardFeedback inc sw ver "failed")]).
  rewrite !log_entries_app.
  rewrite (log_entries_without mid) by kinds_all.
  rewrite (log_entries_without pr) by kinds_all.
  reflexivity.
Qed.

Lemma trigger_failure_returns_early_witness :
  exists s',
    _handle_admin_approval Sample.env_trigger_500 3 Sample.approve_card
      (mkSt {| is_admin_mode := true; pending_approval := Sample.approve_card |}
         no_calls [])
    = (Val tt, s')
    /\ is_admin_mode (bot s') = true.
Proof.
  destruct (trigger_failure_returns_early Sample.env_trigger_500 3 Sample.approve_card
              (mkSt {| is_admin_mode := true; pending_approval := Sample.approve_card |}
                 no_calls []))
    as (s' & pre & post & Hrun & _ & _ & _ & Hbot).
  - cbn. left. discriminate.
  - exists s'. rewrite Hbot. auto.
Defined.

(** ** The ticket is only a mirror *)

Lemma wp_update_eq env inc ns s (Q : Res update_result -> St -> Prop) :
  (forall r mid c',
      update_incident_state_sn env inc ns s
      = (Val r, mkSt (bot s) c'
                  (trace s ++ EvPrint (PrUpdating inc ns) :: EvSnGet inc :: mid)) ->
      c' = Count.sn_get (calls s) \/ c' = Count.sn_patch (Count.sn_get (calls s)) ->
      Q (Val r) (mkSt (bot s) c'
                   (trace s ++ EvPrint (PrUpdating inc ns) :: EvSnGet inc :: mid))) ->
  wp (update_incident_state_sn env inc ns) s Q.
Proof.
  intros H.
  destruct (update_incident_state_sn_run env inc ns s)
    as (r & mid & c' & Hrun & Hc & _).
  unfold wp. rewrite Hrun. now apply H.
Qed.

Lemma update_lookup_failed env inc ns s :
  (forall e,
      sn_get env (n_sn_get (calls s)) inc = LookupRaised e ->
      update_incident_state_sn env inc ns s
      = (Val (UpdError (ErrException e)),
         mkSt (bot s) (Count.sn_get (calls s))
           (trace s ++ [EvPrint (PrUpdating inc ns); EvSnGet inc;
                        EvPrint (PrUpdateError e)])))
  /\ (sn_get env (n_sn_get (calls s)) inc = LookupOk [] ->
      update_incident_state_sn env inc ns s
      = (Val (UpdError (ErrNotFound inc)),
         mkSt (bot s) (Count.sn_get (calls s))
           (trace s ++ [EvPrint (PrUpdating inc ns); EvSnGet inc]))).
Proof.
  split; [intros e Hlk | intros Hlk];
    unfold update_incident_state_sn; run_step; rewrite Hlk; cbn;
    norm_trace; reflexivity.
Qed.

(** The approval handler, with the result of its first step kept. *)
Lemma approval_after_update env fuel card s :
  let inc := card_get card "incident_number" in
  let sw := card_get card "software_name" in
  let ver := card_get card "version" in
  wp (_handle_admin_approval env fuel card) s
    (fun r s' =>
       exists r1 mid c1 post,
         update_incident_state_sn env inc "in progress" s
         = (Val r1, mkSt (bot s) c1
                      (trace s ++ EvPrint (PrUpdating inc "in progress")
                         :: EvSnGet inc :: mid))
         /\ trace s' =
              trace s ++ EvPrint (PrUpdating inc "in progress") :: EvSnGet inc :: mid
                ++ [EvSend (if upd_success r1 then MsgSnInProgress inc
                            else MsgSnUpdateFailed r1);
                    EvSend (MsgApproved inc sw ver);
                    EvLog inc sw ver "Admin approved the software installation request";
                    EvRdRun sw (job_version ver)]
                ++ post).
Proof.
  intros inc sw ver. subst inc sw ver.
  unfold _handle_admin_approval; wp_simpl.
  apply wp_bind, wp_update_eq; intros r1 mid1 c1 Heq1 Hc1; wp_run.
  apply wp_run_rundeck_job; wp_simpl.
  destruct (rd_run env _ _ _) as [ | code [id | ]];
    try (destruct (code =? 200)%Z);
    try (cbn [id_truthy]; destruct (id =? 0)%Z);
    cbn [id_truthy]; wp_run.
  all: try (apply wp_check_frame; intros [final | e | ] k evs Hevs Hexn; wp_simpl;
            [ destruct (String.eqb final "succeeded");
              [ | destruct (existsb (String.eqb final) ["failed"; "aborted"]) ];
              wp_simpl;
              try (apply wp_bind, wp_bind, wp_update; intros r2 mid2 c2 _ Hmid2 _);
              wp_run
            | | ]).
  all: norm_trace; eexists r1, mid1, c1, _; split; [exact Heq1 | reflexivity].
Qed.

(** X12: a failure to update the ticket does not hold the installation
    back.  When the lookup of the incident fails or finds nothing, the
    admin is told that ServiceNow could not be updated, and the approval
    goes on: it is announced, logged, and the job is triggered. *)
Theorem approval_goes_on_without_servicenow
    (env : Env) (fuel : nat) (card : gmap string string) (s : St) (err : update_error) :
  let inc := card_get card "incident_number" in
  let sw := card_get card "software_name" in
  let ver := card_get card "version" in
  (exists e, sn_get env (n_sn_get (calls s)) inc = LookupRaised e
             /\ err = ErrException e)
  \/ (sn_get env (n_sn_get (calls s)) inc = LookupOk [] /\ err = ErrNotFound inc) ->
  exists r s' tl post,
    _handle_admin_approval env fuel card s = (r, s')
    /\ trace s' =
         trace s ++ [EvPrint (PrUpdating inc "in progress"); EvSnGet inc] ++ tl
           ++ [EvSend (MsgSnUpdateFailed (UpdError err));
               EvSend (MsgApproved inc sw ver);
               EvLog inc sw ver "Admin approved the software installation request";
               EvRdRun sw (job_version ver)]
           ++ post
    /\ only [KPrint] tl.
Proof.
  intros inc sw ver Hlk.
  destruct (wp_elim _ _ _ (approval_after_update env fuel card s))
    as (r & s' & Hrun & r1 & mid & c1 & post & Hupd & Htr).
  fold inc sw ver in Hupd, Htr.
  destruct (update_lookup_failed env inc "in progress" s) as [Hraised Hnone].
  exists r, s'.
  destruct Hlk as [(e & Hlk & ->) | [Hlk ->]].
  - rewrite (Hraised e Hlk) in Hupd. injection Hupd as <- _ Hmid.
    apply List.app_inv_head in Hmid. injection Hmid as <-.
    exists [EvPrint (PrUpdateError e)], post.
    split; [exact Hrun |]. split; [rewrite Htr; norm_trace; reflexivity | kinds].
  - rewrite (Hnone Hlk) in Hupd. injection Hupd as <- _ Hmid.
    apply List.app_inv_head in Hmid. injection Hmid as <-.
    exists [], post.
    split; [exact Hrun |]. split; [rewrite Htr; norm_trace; reflexivity | kinds].
Qed.

Lemma approval_goes_on_without_servicenow_witness :
  exists r s' post,
    _handle_admin_approval Cases.env_lookup_fails 5 Sample.approve_card init = (r, s')
    /\ trace s' =
         [EvPrint (PrUpdating "INC0010001" "in progress"); EvSnGet "INC0010001";
          EvPrint (PrUpdateError "ConnectTimeout");
          EvSend (MsgSnUpdateFailed (UpdError (ErrException "ConnectTimeout")));
          EvSend (MsgApproved "INC0010001" "zoom" "5.0");
          EvLog "INC0010001" "zoom" "5.0"
            "Admin approved the software installation request";
          EvRdRun "zoom" (Some "5.0")] ++ post.
Proof.
  destruct (approval_goes_on_without_servicenow Cases.env_lookup_fails 5
              Sample.approve_card init (ErrException "ConnectTimeout"))
    as (r & s' & tl & post & Hrun & Htr & _).
  - left. exists "ConnectTimeout". split; reflexivity.
  - exists r, s'.
    assert (Heq : _handle_admin_approval Cases.env_lookup_fails 5 Sample.approve_card init
                  = (r, s')) by exact Hrun.
    vm_compute in Hrun. injection Hrun as <- <-.
    eexists. split; [exact Heq |]. vm_compute. reflexivity.
Defined.

(** ** Feedback *)

(** X13: a feedback submission is written to the feedback log exactly as
    submitted: the rating is whatever the card carries ("3" when it carries
    none), without any check that it lies between 1 and 5, and the
    submission is logged whatever the bot's state and however often it is
    sent.  The user is thanked when the entry was saved and told so when it
    was not.  Skipping feedback only sends a closing message: nothing is
    recorded.  Neither touches the ticket, the job or the bot's fields. *)
Theorem feedback_is_logged_as_submitted
    (env : Env) (show : gmap string string -> M unit) (fuel : nat)
    (card : gmap string string) (s : St) :
  let inc := card_get card "incident_number" in
  let sw := card_get card "software_name" in
  let ver := card_get card "version" in
  let status := card_get card "installation_status" in
  let rating := default "3" (card !! "rating") in
  let comments := card_get card "feedback_comments" in
  (card !! "action" = Some "submit_feedback" ->
   _handle_card_submission env show fuel card s
   = (Val tt,
      mkSt (bot s) (Count.db_feedback (calls s))
        (trace s ++
           [EvFeedbackLog inc sw ver rating comments status;
            EvSend (if db_feedback env (n_db_feedback (calls s)) inc sw ver rating
                         comments status
                    then MsgFeedbackThanks inc rating
                    else MsgFeedbackNotSaved)])))
  /\ (card !! "action" = Some "skip_feedback" ->
      _handle_card_submission env show fuel card s
      = (Val tt, mkSt (bot s) (calls s) (trace s ++ [EvSend (MsgSkipThanks inc)]))).
Proof.
  intros inc sw ver status rating comments. subst inc sw ver status rating comments.
  split; intros Hact;
    unfold _handle_card_submission, try_except;
    rewrite (card_get_Some _ _ _ Hact); cbn [String.eqb Ascii.eqb Bool.eqb].
  - unfold _handle_feedback_submission, log_feedback. run_step.
    destruct (db_feedback env _ _ _ _ _ _ _); cbn; norm_trace; reflexivity.
  - unfold _handle_skip_feedback. run_step. reflexivity.
Qed.

Lemma feedback_is_logged_as_submitted_witness :
  _handle_card_submission Cases.env_feedback_fails Sample.no_show 0
    Cases.feedback_card_data_unrated init
  = (Val tt,
     mkSt new_bot (Build_Calls 0 0 0 0 0 0 1 0)
       [EvFeedbackLog "INC0010001" "zoom" "5.0" "3" EmptyString "success";
        EvSend MsgFeedbackNotSaved]).
Proof.
  pose proof (proj1 (feedback_is_logged_as_submitted Cases.env_feedback_fails
                       Sample.no_show 0 Cases.feedback_card_data_unrated init)) as H.
  rewrite H; [vm_compute; reflexivity | vm_compute; reflexivity].
Defined.

(** ** Cards and the submissions they lead to *)

Lemma wp_conseq {A} (m : M A) s (Q Q' : Res A -> St -> Prop) :
  wp m s Q -> (forall r s', Q r s' -> Q' r s') -> wp m s Q'.
Proof. unfold wp. destruct (m s). auto. Qed.

Lemma carries_get data cd k v :
  Cards.carries data cd -> In (k, JStr v) data -> card_get cd k = v.
Proof. intros H Hin. unfold card_get. now rewrite (H k v Hin). Qed.

(** An approval arriving through the card handler. *)
Lemma dispatch_approval env show fuel cd s :
  cd !! "action" = Some "admin_approve" ->
  wp (_handle_card_submission env show fuel cd) s
    (fun r s' =>
       exists evs,
         trace s' =
           trace s ++ EvPrint (PrUpdating (card_get cd "incident_number") "in progress")
             :: EvSnGet (card_get cd "incident_number") :: evs
         /\ In (EvRdRun (card_get cd "software_name")
                  (job_version (card_get cd "version"))) evs).
Proof.
  intros Hact. to_approval Hact.
  eapply wp_conseq; [apply approval_any |].
  intros r s' (mid & msg & post & Htr & _).
  destruct r as [[] | e | ]; wp_run; rewrite Htr; norm_trace;
    (eexists; split; [reflexivity | in_list]).
Qed.

(** A rejection arriving through the card handler. *)
Lemma dispatch_rejection env show fuel cd s :
  cd !! "action" = Some "admin_reject" ->
  wp (_handle_card_submission env show fuel cd) s
    (fun r s' =>
       r = Val tt
       /\ exists evs,
           trace s' =
             trace s ++ EvPrint (PrUpdating (card_get cd "incident_number") "cancelled")
               :: EvSnGet (card_get cd "incident_number") :: evs
           /\ without KRdRun evs
           /\ In (EvSend (MsgRejected (card_get cd "incident_number")
                            (card_get cd "software_name") (card_get cd "version")
                            (PyStr.or_else (card_get cd "rejection_reason")
                               "No reason provided"))) evs).
Proof.
  intros Hact. to_approval Hact.
  eapply wp_conseq; [apply rejection_any |].
  intros r s' (-> & _ & _ & _ & mid & upd & Hmid & _ & Htr).
  split; [reflexivity |]. rewrite Htr. eexists. split; [reflexivity |].
  split; [kinds_all | in_list].
Qed.

(** X14: the approval card built for a pending request carries that
    request in both of its buttons, and its inputs are [admin_comments] and
    [rejection_reason].  Whatever else a submission holds,
    pressing APPROVE leads the card handler to update the ticket of that
    incident and to trigger the job for that software and version; pressing
    REJECT leads it to cancel the ticket of that incident and to reject that
    request, without a job. *)
Theorem approval_card_leads_to_its_request
    (title : string -> string) (env : Env) (show : gmap string string -> M unit)
    (fuel : nat) (approval_data : gmap string string) (inc sw ver : string) :
  let requester := default "Unknown User" (approval_data !! "requester") in
  let approve :=
    [("action", JStr "admin_approve"); ("incident_number", JStr inc);
     ("software_name", JStr sw); ("version", JStr ver);
     ("requester", JStr requester); ("timestamp", JStr "{{DATE()}}")] in
  let reject :=
    [("action", JStr "admin_reject"); ("incident_number", JStr inc);
     ("software_name", JStr sw); ("version", JStr ver);
     ("requester", JStr requester); ("timestamp", JStr "{{DATE()}}")] in
  approval_data !! "incident_number" = Some inc ->
  approval_data !! "software_name" = Some sw ->
  approval_data !! "version" = Some ver ->
  Cards.submit_data (Cards.build_admin_approval_card title approval_data)
  = [approve; reject]
  /\ omap (Cards.field "id")
       (Cards.inputs (Cards.build_admin_approval_card title approval_data))
     = [JStr "admin_comments"; JStr "rejection_reason"]
  /\ (forall cd s,
        Cards.carries approve cd ->
        exists r s' evs,
          _handle_card_submission env show fuel cd s = (r, s')
          /\ trace s' =
               trace s ++ EvPrint (PrUpdating inc "in progress") :: EvSnGet inc :: evs
          /\ In (EvRdRun sw (job_version ver)) evs)
  /\ (forall cd s,
        Cards.carries reject cd ->
        exists s' evs,
          _handle_card_submission env show fuel cd s = (Val tt, s')
          /\ trace s' =
               trace s ++ EvPrint (PrUpdating inc "cancelled") :: EvSnGet inc :: evs
          /\ without KRdRun evs
          /\ In (EvSend (MsgRejected inc sw ver
                           (PyStr.or_else (card_get cd "rejection_reason")
                              "No reason provided"))) evs).
Proof.
  intros requester approve reject Hinc Hsw Hver. subst requester approve reject.
  unfold Cards.build_admin_approval_card. rewrite Hinc, Hsw, Hver.
  cbn [default from_option id].
  split; [reflexivity |]. split; [reflexivity |]. split.
  - intros cd s Hcd.
    assert (Hact : cd !! "action" = Some "admin_approve") by (apply Hcd; cbn; tauto).
    destruct (wp_elim _ _ _ (dispatch_approval env show fuel cd s Hact))
      as (r & s' & Hrun & evs & Htr & Hin).
    rewrite (carries_get _ _ "incident_number" inc Hcd) in Htr by (cbn; tauto).
    rewrite (carries_get _ _ "software_name" sw Hcd) in Hin by (cbn; tauto).
    rewrite (carries_get _ _ "version" ver Hcd) in Hin by (cbn; tauto).
    exists r, s', evs. auto.
  - intros cd s Hcd.
    assert (Hact : cd !! "action" = Some "admin_reject") by (apply Hcd; cbn; tauto).
    destruct (wp_elim _ _ _ (dispatch_rejection env show fuel cd s Hact))
      as (r & s' & Hrun & -> & evs & Htr & Hno & Hin).
    rewrite (carries_get _ _ "incident_number" inc Hcd) in Htr, Hin by (cbn; tauto).
    rewrite (carries_get _ _ "software_name" sw Hcd) in Hin by (cbn; tauto).
    rewrite (carries_get _ _ "version" ver Hcd) in Hin by (cbn; tauto).
    exists s', evs. auto.
Qed.

Lemma carries_sample data cd :
  (forall k v, In (k, JStr v) data -> cd !! k = Some v) -> Cards.carries data cd.
Proof. exact (fun H => H). Qed.

Lemma approval_card_leads_to_its_request_witness :
  exists r s' evs,
    _handle_card_submission Sample.env_ok Sample.no_show 5 Cases.approve_submission init
    = (r, s')
    /\ trace s' =
         trace init ++ EvPrint (PrUpdating "INC0010001" "in progress")
           :: EvSnGet "INC0010001" :: evs
    /\ In (EvRdRun "zoom" (job_version "5.0")) evs.
Proof.
  destruct (approval_card_leads_to_its_request (fun x => x) Sample.env_ok Sample.no_show 5
              Cases.approval_data "INC0010001" "zoom" "5.0")
    as (_ & _ & Happrove & _).
  - vm_compute. reflexivity.
  - vm_compute. reflexivity.
  - vm_compute. reflexivity.
  - apply (Happrove Cases.approve_submission init).
    apply carries_sample. intros k v Hin. cbn in Hin.
    repeat match type of Hin with
           | _ \/ _ => destruct Hin as [Hin | Hin]
           end;
      try contradiction Hin; injection Hin as <- <-; vm_compute; reflexivity.
Defined.

(** X15: the feedback card offers the ratings "5" to "1", with "5"
    selected beforehand after a success and "3" otherwise, and both of its
    buttons carry the incident, the software, the version and the
    installation status it was built for.  A submission made with the first
    button is logged for that incident and status, with the rating the
    submission holds; one made with the second sends the closing message for
    that incident and logs nothing. *)
Theorem feedback_card_leads_to_its_request
    (title : string -> string) (env : Env) (show : gmap string string -> M unit)
    (fuel : nat) (inc sw ver status : string) :
  let card := Cards.build_feedback_card title inc sw ver status in
  let submit :=
    [("action", JStr "submit_feedback"); ("incident_number", JStr inc);
     ("software_name", JStr sw); ("version", JStr ver);
     ("installation_status", JStr status); ("timestamp", JStr "{{DATE()}}")] in
  let skip :=
    [("action", JStr "skip_feedback"); ("incident_number", JStr inc);
     ("software_name", JStr sw); ("version", JStr ver);
     ("installation_status", JStr status)] in
  Cards.submit_data card = [submit; skip]
  /\ Cards.choice_values (Cards.input "rating" card)
     = [JStr "5"; JStr "4"; JStr "3"; JStr "2"; JStr "1"]
  /\ (Cards.input "rating" card ≫= Cards.field "value")
     = Some (JStr (if String.eqb status "success" then "5" else "3"))
  /\ (forall cd s,
        Cards.carries submit cd ->
        let rating := default "3" (cd !! "rating") in
        let comments := card_get cd "feedback_comments" in
        _handle_card_submission env show fuel cd s
        = (Val tt,
           mkSt (bot s) (Count.db_feedback (calls s))
             (trace s ++
                [EvFeedbackLog inc sw ver rating comments status;
                 EvSend (if db_feedback env (n_db_feedback (calls s)) inc sw ver rating
                              comments status
                         then MsgFeedbackThanks inc rating
                         else MsgFeedbackNotSaved)])))
  /\ (forall cd s,
        Cards.carries skip cd ->
        _handle_card_submission env show fuel cd s
        = (Val tt, mkSt (bot s) (calls s) (trace s ++ [EvSend (MsgSkipThanks inc)]))).
Proof.
  intros card submit skip. subst card submit skip.
  split; [reflexivity |]. split; [reflexivity |]. split; [reflexivity |].
  split; intros cd s Hcd.
  - assert (Hact : cd !! "action" = Some "submit_feedback") by (apply Hcd; cbn; tauto).
    unfold _handle_card_submission, try_except.
    rewrite (card_get_Some _ _ _ Hact); cbn [String.eqb Ascii.eqb Bool.eqb].
    unfold _handle_feedback_submission, log_feedback. run_step.
    rewrite (carries_get _ _ "incident_number" inc Hcd) by (cbn; tauto).
    rewrite (carries_get _ _ "software_name" sw Hcd) by (cbn; tauto).
    rewrite (carries_get _ _ "version" ver Hcd) by (cbn; tauto).
    rewrite (carries_get _ _ "installation_status" status Hcd) by (cbn; tauto).
    destruct (db_feedback env _ _ _ _ _ _ _); cbn; norm_trace; reflexivity.
  - assert (Hact : cd !! "action" = Some "skip_feedback") by (apply Hcd; cbn; tauto).
    unfold _handle_card_submission, try_except.
    rewrite (card_get_Some _ _ _ Hact); cbn [String.eqb Ascii.eqb Bool.eqb].
    unfold _handle_skip_feedback. run_step.
    rewrite (carries_get _ _ "incident_number" inc Hcd) by (cbn; tauto).
    reflexivity.
Qed.

(** An install submission with an app and a version starts by announcing
    the ticket for them. *)
Lemma dispatch_install env show fuel cd s :
  cd !! "action" = Some "install" ->
  PyStr.truthy (card_get cd "app") = true ->
  PyStr.truthy (card_get cd "version") = true ->
  wp (_handle_card_submission env show fuel cd) s
    (fun r s' =>
       exists evs,
         trace s' =
           trace s ++ EvSend (MsgCreatingTicket (card_get cd "app") (card_get cd "version"))
             :: evs).
Proof.
  intros Hact Happ Hver.
  unfold _handle_card_submission. apply wp_try_except. wp_simpl.
  rewrite (card_get_Some _ _ _ Hact). cbn [String.eqb Ascii.eqb Bool.eqb].
  unfold install_branch, extract_incident_data, create_incident_direct,
    _switch_to_admin_mode.
  wp_simpl. rewrite Happ, Hver. cbn [andb].
  wp_all.
  all: norm_trace; eexists; reflexivity.
Qed.

(** X16: the card for an app offers its versions, in the order given and
    with none selected beforehand, and its button carries the app.  A
    submission made with it that holds a version, offered or not, starts
    the installation request for that app and version; one that holds no
    version, as when none was chosen, only brings the request to select
    one. *)
Theorem software_card_leads_to_its_app
    (title : string -> string) (env : Env) (show : gmap string string -> M unit)
    (fuel : nat) (app : string) (versions : list string) :
  let card := Cards.build_software_card title app versions in
  let data :=
    [("action", JStr "install"); ("app", JStr app); ("timestamp", JStr "{{DATE()}}")] in
  Cards.submit_data card = [data]
  /\ Cards.choice_values (Cards.input "version" card) = map JStr versions
  /\ (Cards.input "version" card ≫= Cards.field "value") = None
  /\ (forall cd s v,
        Cards.carries data cd ->
        cd !! "version" = Some v ->
        PyStr.truthy app = true ->
        PyStr.truthy v = true ->
        exists r s' evs,
          _handle_card_submission env show fuel cd s = (r, s')
          /\ trace s' = trace s ++ EvSend (MsgCreatingTicket app v) :: evs)
  /\ (forall cd s,
        Cards.carries data cd ->
        cd !! "version" = None ->
        _handle_card_submission env show fuel cd s
        = (Val tt, mkSt (bot s) (calls s) (trace s ++ [EvSend MsgSelectVersion]))).
Proof.
  intros card data. subst card data.
  split; [reflexivity |].
  split.
  { unfold Cards.choice_values, Cards.input, Cards.build_software_card. cbn.
    induction versions as [ | v vs IH]; [reflexivity |]. cbn. now rewrite IH. }
  split; [reflexivity |].
  split.
  - intros cd s v Hcd Hv Happ Htv.
    assert (Hact : cd !! "action" = Some "install") by (apply Hcd; cbn; tauto).
    assert (Ha : card_get cd "app" = app) by (apply (carries_get _ _ _ _ Hcd); cbn; tauto).
    assert (Hg : card_get cd "version" = v) by now apply card_get_Some.
    destruct (wp_elim _ _ _ (dispatch_install env show fuel cd s Hact
                               ltac:(now rewrite Ha) ltac:(now rewrite Hg)))
      as (r & s' & Hrun & evs & Htr).
    rewrite Ha, Hg in Htr. exists r, s', evs. auto.
  - intros cd s Hcd Hv.
    assert (Hact : cd !! "action" = Some "install") by (apply Hcd; cbn; tauto).
    unfold _handle_card_submission, try_except, install_branch.
    rewrite (card_get_Some _ _ _ Hact). cbn [String.eqb Ascii.eqb Bool.eqb].
    rewrite (card_get_empty cd "version") by now left.
    cbn [PyStr.truthy]. rewrite andb_false_r. reflexivity.
Qed.

(** ** The catalog card *)

Section Sorting.

Let by_title (a b : string * string) : Prop := String.leb (fst a) (fst b) = true.

Lemma insert_choice_perm c l : Permutation (Cards.insert_choice c l) (c :: l).
Proof.
  induction l as [ | d l IH]; cbn; [reflexivity |].
  destruct (String.leb (fst c) (fst d)); [reflexivity |].
  rewrite IH. apply perm_swap.
Qed.

Lemma sort_choices_perm l : Permutation (Cards.sort_choices l) l.
Proof.
  induction l as [ | c l IH]; cbn; [reflexivity |].
  unfold Cards.sort_choices in *. rewrite insert_choice_perm. now rewrite IH.
Qed.

Lemma insert_choice_HdRel a c l :
  by_title a c -> HdRel by_title a l -> HdRel by_title a (Cards.insert_choice c l).
Proof.
  intros Hac Hal. destruct l as [ | d l]; cbn; [now constructor |].
  destruct (String.leb (fst c) (fst d)); constructor; [exact Hac |].
  now inversion Hal.
Qed.

Lemma insert_choice_sorted c l :
  Sorted by_title l -> Sorted by_title (Cards.insert_choice c l).
Proof.
  induction 1 as [ | d l Hl IH Hd]; cbn; [repeat constructor |].
  destruct (String.leb (fst c) (fst d)) eqn:Hcd.
  - constructor; [now constructor |]. now constructor.
  - constructor; [exact IH |].
    apply insert_choice_HdRel; [| exact Hd].
    destruct (String.leb_total (fst c) (fst d)) as [H | H]; [congruence | exact H].
Qed.

Lemma sort_choices_sorted l : Sorted by_title (Cards.sort_choices l).
Proof.
  induction l as [ | c l IH]; cbn; [constructor |].
  now apply insert_choice_sorted.
Qed.

End Sorting.

(** X17: the card that offers the catalog lists every app of the catalog
    exactly once, under the title made of its name and its latest version
    (the last of its versions, "Unknown" when it has none), and in
    ascending order of these titles.  Its button carries no app: the
    choice travels in the input [selected_software]. *)
Theorem selection_card_lists_the_catalog_in_order
    (title : string -> string) (catalog : list (string * list string)) :
  let choices := Cards.selection_choices title catalog in
  let card := Cards.build_software_selection_card title catalog in
  Permutation choices
    (map (fun e => ((title (fst e) ++ " (Latest: "
                       ++ List.last (snd e) "Unknown" ++ ")")%string, fst e))
       catalog)
  /\ Permutation (map snd choices) (map fst catalog)
  /\ Sorted (fun a b => String.leb (fst a) (fst b) = true) choices
  /\ Cards.choice_values (Cards.input "selected_software" card)
     = map (fun c => JStr (snd c)) choices
  /\ Cards.submit_data card
     = [[("action", JStr "show_versions"); ("timestamp", JStr "{{DATE()}}")]].
Proof.
  intros choices card. subst choices card.
  assert (Hperm : Permutation (Cards.selection_choices title catalog)
                    (map (fun e => ((title (fst e) ++ " (Latest: "
                                       ++ List.last (snd e) "Unknown" ++ ")")%string,
                                    fst e)) catalog)).
  { unfold Cards.selection_choices. rewrite sort_choices_perm.
    erewrite map_ext; [reflexivity |]. now intros [app versions]. }
  split; [exact Hperm |].
  split.
  { rewrite Hperm. rewrite List.map_map. cbn. reflexivity. }
  split; [apply sort_choices_sorted |].
  split; [| reflexivity].
  unfold Cards.choice_values, Cards.input, Cards.build_software_selection_card. cbn.
  clear Hperm.
  induction (Cards.selection_choices title catalog) as [ | c cs IH]; [reflexivity |].
  cbn. now rewrite IH.
Qed.

(** ** Samples of the cards' submissions *)

(** A concrete submission holds the data of a button. *)
Ltac carries_sample_data :=
  apply carries_sample; intros k v Hin; cbn in Hin;
  repeat match type of Hin with
         | _ \/ _ => destruct Hin as [Hin | Hin]
         end;
  try contradiction Hin; injection Hin as <- <-; vm_compute; reflexivity.

Lemma feedback_card_leads_to_its_request_witness :
  _handle_card_submission Sample.env_ok Sample.no_show 0 Cases.feedback_card_data init
  = (Val tt,
     mkSt new_bot (Count.db_feedback no_calls)
       [EvFeedbackLog "INC0010001" "zoom" "5.0" "4" "quick" "success";
        EvSend (MsgFeedbackThanks "INC0010001" "4")]).
Proof.
  destruct (feedback_card_leads_to_its_request (fun x => x) Sample.env_ok Sample.no_show 0
              "INC0010001" "zoom" "5.0" "success")
    as (_ & _ & _ & Hsubmit & _).
  rewrite (Hsubmit Cases.feedback_card_data init); [vm_compute; reflexivity |].
  carries_sample_data.
Defined.

Lemma software_card_leads_to_its_app_witness :
  exists r s' evs,
    _handle_card_submission Sample.env_ok Sample.no_show 0 Cases.install_submission init
    = (r, s')
    /\ trace s' = trace init ++ EvSend (MsgCreatingTicket "zoom" "5.0") :: evs.
Proof.
  destruct (software_card_leads_to_its_app (fun x => x) Sample.env_ok Sample.no_show 0
              "zoom" ["5.0"; "5.1"])
    as (_ & _ & _ & Hchosen & _).
  apply (Hchosen Cases.install_submission init "5.0").
  - carries_sample_data.
  - vm_compute. reflexivity.
  - reflexivity.
  - reflexivity.
Defined.

(** ** What a submission is read for *)

(** X18: the card handler reads nine entries of a submission and nothing
    else (the catalog branch apart): two submissions that agree on them are
    handled alike.  So the comment an admin types into [admin_comments], and
    the requester and the timestamp that the buttons carry, have no effect:
    they are neither logged nor sent nor stored. *)
Theorem submission_is_read_for_nine_entries
    (env : Env) (show : gmap string string -> M unit) (fuel : nat)
    (cd cd' : gmap string string) (s : St) :
  (forall k,
      In k ["action"; "app"; "version"; "incident_number"; "software_name";
            "rejection_reason"; "installation_status"; "rating"; "feedback_comments"] ->
      cd !! k = cd' !! k) ->
  card_get cd "action" <> "show_versions" ->
  _handle_card_submission env show fuel cd s = _handle_card_submission env show fuel cd' s.
Proof.
  intros Hsame Hact.
  assert (Hget : forall k,
             In k ["action"; "app"; "version"; "incident_number"; "software_name";
                   "rejection_reason"; "installation_status"; "rating";
                   "feedback_comments"] ->
             card_get cd k = card_get cd' k).
  { intros k Hk. unfold card_get. now rewrite (Hsame k Hk). }
  assert (Hshow : String.eqb (card_get cd "action") "show_versions" = false)
    by now apply String.eqb_neq.
  unfold _handle_card_submission, install_branch, _handle_admin_approval,
    _handle_admin_rejection, _handle_feedback_submission, _handle_skip_feedback.
  rewrite <- (Hsame "rating") by (cbn; tauto).
  rewrite <- !(Hget "action") by (cbn; tauto).
  rewrite <- !(Hget "app") by (cbn; tauto).
  rewrite <- !(Hget "version") by (cbn; tauto).
  rewrite <- !(Hget "incident_number") by (cbn; tauto).
  rewrite <- !(Hget "software_name") by (cbn; tauto).
  rewrite <- !(Hget "rejection_reason") by (cbn; tauto).
  rewrite <- !(Hget "installation_status") by (cbn; tauto).
  rewrite <- !(Hget "feedback_comments") by (cbn; tauto).
  rewrite Hshow. reflexivity.
Qed.

Lemma submission_is_read_for_nine_entries_witness :
  _handle_card_submission Sample.env_ok Sample.no_show 5 Cases.approve_submission init
  = _handle_card_submission Sample.env_ok Sample.no_show 5 Sample.approve_card init.
Proof.
  apply submission_is_read_for_nine_entries.
  - intros k Hin. cbn in Hin.
    repeat match type of Hin with
           | _ \/ _ => destruct Hin as [Hin | Hin]
           end;
      try contradiction Hin; subst k; vm_compute; reflexivity.
  - vm_compute. discriminate.
Defined.

(** ** What is posted to ServiceNow *)

(** X19: the incident that an install submission posts is the answer of
    the language model, unchecked: when the answer is a JSON object it is
    posted as it is, whatever its entries, with only a missing or empty
    caller replaced by "Guest"; when it is not JSON, the incident posted has
    "Installation of <name> v<version>" as short description and as
    description, the category "Software" and the caller "Guest". *)
Theorem install_posts_the_model_answer
    (env : Env) (show : gmap string string -> M unit) (fuel : nat)
    (card : gmap string string) (s : St) (name iv : string)
    (parsed : option (gmap string string)) :
  let app := card_get card "app" in
  let ver := card_get card "version" in
  let description := ("Installation of " ++ name ++ " v" ++ iv)%string in
  let prompt :=
    ("Analyze this user input and extract incident information in JSON format: "
       ++ String "034" description ++ String "034" EmptyString)%string in
  let posted :=
    match parsed with
    | Some d => if PyStr.truthy (card_get d "caller") then d else <["caller" := "Guest"]> d
    | None => list_to_map [("short_description", description);
                           ("description", description);
                           ("category", "Software"); ("caller", "Guest")]
    end in
  card !! "action" = Some "install" ->
  PyStr.truthy app = true ->
  PyStr.truthy ver = true ->
  get_software_info env app ver = Some (name, iv) ->
  llm_chat env (n_llm (calls s)) prompt = LlmText parsed ->
  exists r s' evs,
    _handle_card_submission env show fuel card s = (r, s')
    /\ trace s' =
         trace s ++ [EvSend (MsgCreatingTicket app ver); EvLlm prompt; EvPrint PrRawLlm]
           ++ match parsed with Some _ => [] | None => [EvPrint PrLlmNotJson] end
           ++ [EvPrint PrCreating; EvSnPost posted] ++ evs.
Proof.
  intros app ver description prompt posted Hact Happ Hver Hinfo Hllm.
  subst app ver description prompt posted.
  enough (H : wp (_handle_card_submission env show fuel card) s
                (fun r s' =>
                   exists evs,
                     trace s' =
                       trace s
                         ++ [EvSend (MsgCreatingTicket (card_get card "app")
                                       (card_get card "version"));
                             EvLlm ("Analyze this user input and extract incident information in JSON format: "
                                      ++ String "034" ("Installation of " ++ name ++ " v" ++ iv)
                                      ++ String "034" EmptyString)%string;
                             EvPrint PrRawLlm]
                         ++ match parsed with
                            | Some _ => []
                            | None => [EvPrint PrLlmNotJson]
                            end
                         ++ [EvPrint PrCreating;
                             EvSnPost
                               match parsed with
                               | Some d =>
                                   if PyStr.truthy (card_get d "caller") then d
                                   else <["caller" := "Guest"]> d
                               | None =>
                                   list_to_map
                                     [("short_description",
                                       ("Installation of " ++ name ++ " v" ++ iv)%string);
                                      ("description",
                                       ("Installation of " ++ name ++ " v" ++ iv)%string);
                                      ("category", "Software"); ("caller", "Guest")]
                               end]
                         ++ evs)).
  { destruct (wp_elim _ _ _ H) as (r & s' & Hrun & evs & Htr). eauto. }
  unfold _handle_card_submission. apply wp_try_except. wp_simpl.
  rewrite (card_get_Some _ _ _ Hact). cbn [String.eqb Ascii.eqb Bool.eqb].
  unfold install_branch. wp_simpl. rewrite Happ, Hver. cbn [andb].
  wp_run. rewrite Hinfo. wp_simpl. rewrite truthy_description.
  unfold extract_incident_data, create_incident_direct, _switch_to_admin_mode.
  wp_run. rewrite Hllm.
  destruct parsed as [d | ]; wp_all.
  all: norm_trace; eexists; reflexivity.
Qed.

Lemma install_posts_the_model_answer_witness :
  exists r s' evs,
    _handle_card_submission Sample.env_ok Sample.no_show 0 Sample.install_card init = (r, s')
    /\ trace s' =
         [EvSend (MsgCreatingTicket "zoom" "5.0");
          EvLlm ("Analyze this user input and extract incident information in JSON format: "
                   ++ String "034" "Installation of zoom v5.0"
                   ++ String "034" EmptyString)%string;
          EvPrint PrRawLlm; EvPrint PrLlmNotJson; EvPrint PrCreating;
          EvSnPost (list_to_map [("short_description", "Installation of zoom v5.0");
                                 ("description", "Installation of zoom v5.0");
                                 ("category", "Software"); ("caller", "Guest")])]
         ++ evs.
Proof.
  destruct (install_posts_the_model_answer Sample.env_ok Sample.no_show 0
              Sample.install_card init "zoom" "5.0" None)
    as (r & s' & evs & Hrun & Htr).
  - vm_compute. reflexivity.
  - vm_compute. reflexivity.
  - vm_compute. reflexivity.
  - vm_compute. reflexivity.
  - reflexivity.
  - exists r, s', evs. split; [exact Hrun |]. rewrite Htr. reflexivity.
Defined.
